(** * provider-planetscale: the Database and Password external clients

    A shallow embedding of the two managed-resource controllers

      - internal/controller/database/database.go
      - internal/controller/password/password.go

    Every Go function of the connector / external-client pair is a
    computation in a small monad [Go]: it threads a store (the managed
    resource behind the [mg] pointer, the trace of requests sent to the
    PlanetScale API, the trace of requests sent to the Kubernetes API) and
    ends either by returning or by panicking (nil pointer dereference).
    A Go result [(T, error)] is a pair [T * option error], [None] being the
    nil error; a Go pointer that may be nil is an [option]. *)

From Stdlib Require Import String List Bool.
From stdpp Require Import gmap strings.

Local Open Scope string_scope.
Local Open Scope list_scope.
Local Open Scope stdpp_scope.

(* ===================================================================== *)
(** ** Errors *)

(** planetscale.ErrorCode: the codes the API client attaches to its errors. *)
Inductive ErrorCode :=
| ErrInternal | ErrInvalid | ErrPermission | ErrNotFound | ErrRetry
| ErrResponseMalformed.

(** A value of Go's [error] interface, as far as the controllers can tell
    values apart: a [*planetscale.Error] (the only type the controllers
    assert on), an error built by [errors.Wrap], or any other error value
    ([errors.New], a transport error, a Kubernetes API error ...). *)
Inductive error :=
| PlanetScaleError (Code : ErrorCode) (msg : string)
| Fundamental (msg : string)
| WithMessage (cause : error) (msg : string).

Definition ErrorCode_eqb (a b : ErrorCode) : bool :=
  match a, b with
  | ErrInternal, ErrInternal | ErrInvalid, ErrInvalid
  | ErrPermission, ErrPermission | ErrNotFound, ErrNotFound
  | ErrRetry, ErrRetry | ErrResponseMalformed, ErrResponseMalformed => true
  | _, _ => false
  end.

Module errors.

(** errors.New(msg) *)
Definition New (msg : string) : error := Fundamental msg.

(** errors.Wrap(err, msg), called on a non-nil [err] only. *)
Definition Wrap (err : error) (msg : string) : error := WithMessage err msg.

(** The [Error()] method: a wrapper prints its message, a colon and a
    space, then its cause. *)
Fixpoint Error (e : error) : string :=
  match e with
  | PlanetScaleError _ msg => msg
  | Fundamental msg => msg
  | WithMessage cause msg => msg +:+ ": " +:+ Error cause
  end.

End errors.

(** The test both Observe methods run on the query error: the error is
    type-asserted to a pointer to planetscale.Error, and on success its
    Code is compared with planetscale.ErrNotFound. *)
Definition isNotFound (err : option error) : bool :=
  match err with
  | Some (PlanetScaleError code _) => ErrorCode_eqb code ErrNotFound
  | _ => false
  end.

(* ===================================================================== *)
(** ** The PlanetScale API client, at the controllers' interface *)

Module planetscale.

Definition DatabaseReady : string := "ready".

(** Of a database the controllers read the state only. *)
Record Database := { State : string }.

Record DatabaseBranch := { AccessHostURL : string }.

Record DatabaseBranchPassword := {
  PublicID : string;
  Name : string;
  PlainText : string;
  Branch : DatabaseBranch }.

Record GetDatabaseRequest := {
  gd_Organization : string; gd_Database : string }.

Record CreateDatabaseRequest := {
  cd_Organization : string; cd_Name : string;
  cd_Notes : string; cd_Region : string }.

Record DeleteDatabaseRequest := {
  dd_Organization : string; dd_Database : string }.

Record GetDatabaseBranchPasswordRequest := {
  gp_Organization : string; gp_Database : string; gp_Branch : string;
  gp_DisplayName : string; gp_PasswordId : string }.

Record DatabaseBranchPasswordRequest := {
  cp_Organization : string; cp_Database : string; cp_Branch : string;
  cp_DisplayName : string }.

Record DeleteDatabaseBranchPasswordRequest := {
  dp_Organization : string; dp_Database : string; dp_Branch : string;
  dp_DisplayName : string; dp_PasswordId : string }.

(** One request sent to the external system. *)
Inductive Call :=
| DatabasesGet (r : GetDatabaseRequest)
| DatabasesCreate (r : CreateDatabaseRequest)
| DatabasesDelete (r : DeleteDatabaseRequest)
| PasswordsGet (r : GetDatabaseBranchPasswordRequest)
| PasswordsCreate (r : DatabaseBranchPasswordRequest)
| PasswordsDelete (r : DeleteDatabaseBranchPasswordRequest).

(** [*planetscale.Client]: the six service methods the controllers use.
    The external system is deterministic in its history: an answer is a
    function of the requests sent so far and of the present request. A
    method returning a pointer may return nil. *)
Record Client := {
  Databases_Get :
    list Call -> GetDatabaseRequest -> option Database * option error;
  Databases_Create :
    list Call -> CreateDatabaseRequest -> option Database * option error;
  Databases_Delete :
    list Call -> DeleteDatabaseRequest -> option error;
  Passwords_Get :
    list Call -> GetDatabaseBranchPasswordRequest ->
    option DatabaseBranchPassword * option error;
  Passwords_Create :
    list Call -> DatabaseBranchPasswordRequest ->
    option DatabaseBranchPassword * option error;
  Passwords_Delete :
    list Call -> DeleteDatabaseBranchPasswordRequest -> option error }.

End planetscale.

(* ===================================================================== *)
(** ** Kubernetes and crossplane-runtime types *)

Module metav1.

Record ObjectMeta := {
  Name : string;
  Annotations : gmap string string }.

End metav1.

Module xpv1.

Record Reference := { Name : string }.

Inductive ConditionType := TypeReady | TypeSynced.
Inductive ConditionStatus := ConditionTrue | ConditionFalse | ConditionUnknown.
Inductive ConditionReason := ReasonAvailable | ReasonCreating | ReasonDeleting.

Record Condition := {
  Type_ : ConditionType;
  Status : ConditionStatus;
  Reason : ConditionReason }.

Definition Available : Condition :=
  {| Type_ := TypeReady; Status := ConditionTrue; Reason := ReasonAvailable |}.

Definition ConditionType_eqb (a b : ConditionType) : bool :=
  match a, b with
  | TypeReady, TypeReady | TypeSynced, TypeSynced => true
  | _, _ => false
  end.

(** ConditionedStatus.SetConditions for one condition: a condition of the
    same type is overwritten, otherwise the new one is appended. *)
Definition SetConditions (cs : list Condition) (new : Condition)
  : list Condition :=
  if existsb (fun c => ConditionType_eqb (Type_ c) (Type_ new)) cs
  then map (fun c => if ConditionType_eqb (Type_ c) (Type_ new)
                     then new else c) cs
  else cs ++ [new].

Record ResourceSpec := { ProviderConfigReference : option Reference }.

Record ResourceStatus := { Conditions : list Condition }.

End xpv1.

(** apis/v1alpha1: ProviderConfig, as far as Connect reads it. *)
Module apisv1alpha1.

Record ProviderCredentials := {
  Source : string;
  CommonCredentialSelectors : string }.

Record ProviderConfigSpec := { Credentials : ProviderCredentials }.

Record ProviderConfig := { Spec : ProviderConfigSpec }.

End apisv1alpha1.

(* ===================================================================== *)
(** ** The two custom resources *)

(** apis/branch/v1alpha1: the Password resource. The parameters and the
    observation are the fields the controller reads and writes
    ([Spec.ForProvider.Organization], [.Database] (a pointer), [.Branch],
    [Status.AtProvider.ID]). *)
Module branchv1alpha1.

Record PasswordParameters := {
  Organization : string;
  Database : option string;
  Branch : string }.

Record PasswordObservation := { ID : string }.

Record PasswordSpec := {
  ResourceSpec : xpv1.ResourceSpec;
  ForProvider : PasswordParameters }.

Record PasswordStatus := {
  ResourceStatus : xpv1.ResourceStatus;
  AtProvider : PasswordObservation }.

Record Password := {
  ObjectMeta : metav1.ObjectMeta;
  Spec : PasswordSpec;
  Status : PasswordStatus }.

End branchv1alpha1.

(** apis/database/v1alpha1: the Database resource, with the fields the
    controller reads and writes ([Spec.ForProvider.Organization], [.Notes]
    and [.Region] (pointers), [Status.AtProvider.State]). *)
Module databasev1alpha1.

Record DatabaseParameters := {
  Organization : string;
  Notes : option string;
  Region : option string }.

Record DatabaseObservation := { State : string }.

Record DatabaseSpec := {
  ResourceSpec : xpv1.ResourceSpec;
  ForProvider : DatabaseParameters }.

Record DatabaseStatus := {
  ResourceStatus : xpv1.ResourceStatus;
  AtProvider : DatabaseObservation }.

Record Database := {
  ObjectMeta : metav1.ObjectMeta;
  Spec : DatabaseSpec;
  Status : DatabaseStatus }.

End databasev1alpha1.

Module resource.

(** resource.Managed: the interface value handed to the clients. Its
    dynamic type is one of the two kinds of this provider or some other
    managed kind, of which only the object metadata matters here. *)
Inductive Managed :=
| PasswordCR (cr : branchv1alpha1.Password)
| DatabaseCR (cr : databasev1alpha1.Database)
| OtherCR (m : metav1.ObjectMeta).

Definition GetObjectMeta (mg : Managed) : metav1.ObjectMeta :=
  match mg with
  | PasswordCR cr => branchv1alpha1.ObjectMeta cr
  | DatabaseCR cr => databasev1alpha1.ObjectMeta cr
  | OtherCR m => m
  end.

End resource.

Module meta.

Definition AnnotationKeyExternalName : string := "crossplane.io/external-name".

(** meta.GetExternalName: the annotation's value, the empty string when
    the annotation is absent. *)
Definition GetExternalName (m : metav1.ObjectMeta) : string :=
  default "" (metav1.Annotations m !! AnnotationKeyExternalName).

(** meta.SetExternalName: adds or overwrites the annotation. *)
Definition SetExternalName (m : metav1.ObjectMeta) (name : string)
  : metav1.ObjectMeta :=
  {| metav1.Name := metav1.Name m;
     metav1.Annotations :=
       <[AnnotationKeyExternalName := name]> (metav1.Annotations m) |}.

End meta.

Module managed.

Record ExternalObservation := {
  ResourceExists : bool;
  ResourceUpToDate : bool;
  ObservedConnectionDetails : gmap string (list Byte.byte) }.

(** The struct literal [managed.ExternalObservation{}] with the fields a
    controller sets; every other field has its zero value (a nil map
    reads as the empty one). *)
Definition Observation (exists_ upToDate : bool) : ExternalObservation :=
  {| ResourceExists := exists_; ResourceUpToDate := upToDate;
     ObservedConnectionDetails := ∅ |}.

Record ExternalCreation := {
  ConnectionDetails : gmap string (list Byte.byte) }.

Record ExternalUpdate := {
  UpdateConnectionDetails : gmap string (list Byte.byte) }.

End managed.

(** The conversion [[]byte(s)]. *)
Definition bytes (s : string) : list Byte.byte := list_byte_of_string s.

(* ===================================================================== *)
(** ** The Kubernetes side of Connect *)

Module kube.

(** One request to the Kubernetes API server. *)
Inductive Call :=
| TrackUsage (mg : resource.Managed)
| GetProviderConfig (name : string)
| ExtractCredentials (source selectors : string).

(** client.Client, as Connect uses it: [Get] of a ProviderConfig by name
    (it fills the object passed in and returns an error), and what
    [resource.CommonCredentialExtractor] obtains through this client for
    a source and its selectors. Answers depend on the requests made so
    far. *)
Record Client := {
  Get : list Call -> string ->
        apisv1alpha1.ProviderConfig * option error;
  CommonCredentialExtractor :
    list Call -> string -> string -> list Byte.byte * option error }.

(** resource.Tracker *)
Record Tracker := {
  Track : list Call -> resource.Managed -> option error }.

End kube.

(* ===================================================================== *)
(** ** The monad of a Go call *)

Record Store := {
  object : resource.Managed;          (* what the pointer [mg] refers to *)
  api : list planetscale.Call;        (* requests sent to PlanetScale *)
  kubelog : list kube.Call }.         (* requests sent to Kubernetes *)

Inductive panic := NilDereference.

Inductive outcome (A : Type) :=
| Returned (a : A)
| Panicked (p : panic).
Arguments Returned {A} a.
Arguments Panicked {A} p.

Definition Go (A : Type) : Type := Store -> outcome A * Store.

Definition ret {A} (a : A) : Go A := fun s => (Returned a, s).

Definition bind {A B} (m : Go A) (k : A -> Go B) : Go B :=
  fun s => match m s with
           | (Returned a, s') => k a s'
           | (Panicked p, s') => (Panicked p, s')
           end.

Notation "'do' x <- m ; k" := (bind m (fun x => k))
  (at level 10, x pattern, m at level 99, k at level 200).

(** Dereferencing a pointer. *)
Definition deref {A} (p : option A) : Go A :=
  fun s => match p with
           | Some a => (Returned a, s)
           | None => (Panicked NilDereference, s)
           end.

Definition load : Go resource.Managed := fun s => (Returned (object s), s).

Definition store (mg : resource.Managed) : Go unit :=
  fun s => (Returned tt,
            {| object := mg; api := api s; kubelog := kubelog s |}).

(** The store after one more request to PlanetScale. *)
Definition sent (s : Store) (c : planetscale.Call) : Store :=
  {| object := object s; api := api s ++ [c]; kubelog := kubelog s |}.

(** A request to PlanetScale: answered from the history, then logged. *)
Definition request {R A} (f : list planetscale.Call -> R -> A)
    (tag : R -> planetscale.Call) (r : R) : Go A :=
  fun s => (Returned (f (api s) r), sent s (tag r)).

(** The ExternalName annotation of the resource in the store. *)
Definition externalName (s : Store) : string :=
  meta.GetExternalName (resource.GetObjectMeta (object s)).

(** A request to Kubernetes: answered from the history, then logged. *)
Definition kuberequest {A} (answer : list kube.Call -> A) (c : kube.Call)
  : Go A :=
  fun s => (Returned (answer (kubelog s)),
            {| object := object s; api := api s;
               kubelog := kubelog s ++ [c] |}).

(** The four steps of Connect that can fail, in the order the code runs
    them. *)
Inductive stage :=
| StageTrackUsage | StageGetProviderConfig | StageGetCredentials
| StageNewService.

(* ===================================================================== *)
(** ** internal/controller/password *)

Module password.

Import branchv1alpha1.

Definition errNotPassword := "managed resource is not a Password custom resource".
Definition errTrackPCUsage := "cannot track ProviderConfig usage".
Definition errGetPC := "cannot get ProviderConfig".
Definition errGetCreds := "cannot get credentials".
Definition errNewClient := "cannot create new Service".

Record PlanetScaleService := { pCLI : option planetscale.Client }.

(** The default service constructor. [NewClient token] stands for the
    library call planetscale.NewClient(planetscale.WithAccessToken(token));
    the credential bytes are converted with [string(creds)]. The service
    is allocated whether or not the library call failed. *)
Definition newPlanetScaleService
    (NewClient : string -> option planetscale.Client * option error)
    (creds : list Byte.byte) : option PlanetScaleService * option error :=
  let '(c, err) := NewClient (string_of_list_byte creds) in
  (Some {| pCLI := c |}, err).

(** The connector's three collaborators. [newServiceFn] is handed the
    credential bytes and nothing else. *)
Record connector := {
  kube : kube.Client;
  usage : kube.Tracker;
  newServiceFn :
    list Byte.byte -> option PlanetScaleService * option error }.

Record external := { service : option PlanetScaleService }.

(** The type assertion of [mg] to a pointer to v1alpha1.Password: the
    resource and ok = true ([Some]), or ok = false ([None]). *)
Definition asPassword (mg : resource.Managed) : option Password :=
  match mg with
  | resource.PasswordCR cr => Some cr
  | _ => None
  end.

(** [c.service.pCLI]: two pointers are followed. *)
Definition client (c : external) : Go planetscale.Client :=
  do svc <- deref (service c);
  deref (pCLI svc).

(** An external client whose service and API client are both non-nil. *)
Definition connected (cli : planetscale.Client) : external :=
  {| service := Some {| pCLI := Some cli |} |}.

(** The message Connect wraps a failure of each step with. *)
Definition stageMessage (st : stage) : string :=
  match st with
  | StageTrackUsage => errTrackPCUsage
  | StageGetProviderConfig => errGetPC
  | StageGetCredentials => errGetCreds
  | StageNewService => errNewClient
  end.

(** The three request literals. *)
Definition getRequest (cr : Password) (database : string)
  : planetscale.GetDatabaseBranchPasswordRequest :=
  {| planetscale.gp_Organization := Organization (ForProvider (Spec cr));
     planetscale.gp_Database := database;
     planetscale.gp_Branch := Branch (ForProvider (Spec cr));
     planetscale.gp_DisplayName := metav1.Name (ObjectMeta cr);
     planetscale.gp_PasswordId := meta.GetExternalName (ObjectMeta cr) |}.

Definition createRequest (cr : Password) (database : string)
  : planetscale.DatabaseBranchPasswordRequest :=
  {| planetscale.cp_Organization := Organization (ForProvider (Spec cr));
     planetscale.cp_Database := database;
     planetscale.cp_Branch := Branch (ForProvider (Spec cr));
     planetscale.cp_DisplayName := metav1.Name (ObjectMeta cr) |}.

Definition deleteRequest (cr : Password) (database : string)
  : planetscale.DeleteDatabaseBranchPasswordRequest :=
  {| planetscale.dp_Organization := Organization (ForProvider (Spec cr));
     planetscale.dp_Database := database;
     planetscale.dp_Branch := Branch (ForProvider (Spec cr));
     planetscale.dp_DisplayName := metav1.Name (ObjectMeta cr);
     planetscale.dp_PasswordId := meta.GetExternalName (ObjectMeta cr) |}.

Definition Connect (c : connector)
  : Go (option external * option error) :=
  do mg <- load;
  match asPassword mg with
  | Some cr =>
    do terr <- kuberequest (fun h => kube.Track (usage c) h mg)
                 (kube.TrackUsage mg);
    match terr with
    | Some err => ret (None, Some (errors.Wrap err errTrackPCUsage))
    | None =>
      do ref <- deref (xpv1.ProviderConfigReference (ResourceSpec (Spec cr)));
      do (pc, gerr) <- kuberequest
                          (fun h => kube.Get (kube c) h (xpv1.Name ref))
                          (kube.GetProviderConfig (xpv1.Name ref));
      match gerr with
      | Some err => ret (None, Some (errors.Wrap err errGetPC))
      | None =>
        let cd := apisv1alpha1.Credentials (apisv1alpha1.Spec pc) in
        let source := apisv1alpha1.Source cd in
        let selectors := apisv1alpha1.CommonCredentialSelectors cd in
        do (data, cerr) <- kuberequest
               (fun h => kube.CommonCredentialExtractor (kube c) h
                           source selectors)
               (kube.ExtractCredentials source selectors);
        match cerr with
        | Some err => ret (None, Some (errors.Wrap err errGetCreds))
        | None =>
          let '(svc, nerr) := newServiceFn c data in
          match nerr with
          | Some err => ret (None, Some (errors.Wrap err errNewClient))
          | None => ret (Some {| service := svc |}, None)
          end
        end
      end
    end
  | None => ret (None, Some (errors.New errNotPassword))
  end.

(** [fails c s cr st err]: on a run of Connect from store [s], step [st]
    is the first one to fail, and it fails with [err]. Each step is
    answered on the Kubernetes requests made before it. *)
Inductive fails (c : connector) (s : Store) (cr : Password)
  : stage -> error -> Prop :=
| fails_track err :
    kube.Track (usage c) (kubelog s) (resource.PasswordCR cr) = Some err ->
    fails c s cr StageTrackUsage err
| fails_get ref pc err :
    kube.Track (usage c) (kubelog s) (resource.PasswordCR cr) = None ->
    xpv1.ProviderConfigReference (ResourceSpec (Spec cr)) = Some ref ->
    kube.Get (kube c)
      (kubelog s ++ [kube.TrackUsage (resource.PasswordCR cr)])
      (xpv1.Name ref) = (pc, Some err) ->
    fails c s cr StageGetProviderConfig err
| fails_creds ref pc data err :
    kube.Track (usage c) (kubelog s) (resource.PasswordCR cr) = None ->
    xpv1.ProviderConfigReference (ResourceSpec (Spec cr)) = Some ref ->
    kube.Get (kube c)
      (kubelog s ++ [kube.TrackUsage (resource.PasswordCR cr)])
      (xpv1.Name ref) = (pc, None) ->
    kube.CommonCredentialExtractor (kube c)
      ((kubelog s ++ [kube.TrackUsage (resource.PasswordCR cr)])
         ++ [kube.GetProviderConfig (xpv1.Name ref)])
      (apisv1alpha1.Source (apisv1alpha1.Credentials (apisv1alpha1.Spec pc)))
      (apisv1alpha1.CommonCredentialSelectors
         (apisv1alpha1.Credentials (apisv1alpha1.Spec pc)))
    = (data, Some err) ->
    fails c s cr StageGetCredentials err
| fails_new ref pc data svc err :
    kube.Track (usage c) (kubelog s) (resource.PasswordCR cr) = None ->
    xpv1.ProviderConfigReference (ResourceSpec (Spec cr)) = Some ref ->
    kube.Get (kube c)
      (kubelog s ++ [kube.TrackUsage (resource.PasswordCR cr)])
      (xpv1.Name ref) = (pc, None) ->
    kube.CommonCredentialExtractor (kube c)
      ((kubelog s ++ [kube.TrackUsage (resource.PasswordCR cr)])
         ++ [kube.GetProviderConfig (xpv1.Name ref)])
      (apisv1alpha1.Source (apisv1alpha1.Credentials (apisv1alpha1.Spec pc)))
      (apisv1alpha1.CommonCredentialSelectors
         (apisv1alpha1.Credentials (apisv1alpha1.Spec pc)))
    = (data, None) ->
    newServiceFn c data = (svc, Some err) ->
    fails c s cr StageNewService err.

Definition Observe (c : external)
  : Go (managed.ExternalObservation * option error) :=
  do mg <- load;
  match asPassword mg with
  | Some cr =>
    do cli <- client c;
    do database <- deref (Database (ForProvider (Spec cr)));
    do (p, err) <- request (planetscale.Passwords_Get cli)
                     planetscale.PasswordsGet (getRequest cr database);
    if isNotFound err
    then ret (managed.Observation false false, None)
    else
      do p' <- deref p;
      ret (managed.Observation true
             (negb (String.eqb (planetscale.Name p')
                               (metav1.Name (ObjectMeta cr)))),
           err)
  | None => ret (managed.Observation false false,
              Some (errors.New errNotPassword))
  end.

Definition Create (c : external)
  : Go (managed.ExternalCreation * option error) :=
  do mg <- load;
  match asPassword mg with
  | Some cr =>
    do cli <- client c;
    do database <- deref (Database (ForProvider (Spec cr)));
    do (p, err) <- request (planetscale.Passwords_Create cli)
                     planetscale.PasswordsCreate (createRequest cr database);
    match err with
    | Some e => ret ({| managed.ConnectionDetails := ∅ |}, Some e)
    | None =>
      do p' <- deref p;
      let cr' :=
        {| ObjectMeta :=
             meta.SetExternalName (ObjectMeta cr) (planetscale.PublicID p');
           Spec := Spec cr;
           Status :=
             {| ResourceStatus := ResourceStatus (Status cr);
                AtProvider := {| ID := planetscale.PublicID p' |} |} |} in
      do _ <- store (resource.PasswordCR cr');
      do database' <- deref (Database (ForProvider (Spec cr')));
      ret ({| managed.ConnectionDetails :=
                <["host" := bytes (planetscale.AccessHostURL
                                     (planetscale.Branch p'))]>
                (<["username" := bytes (planetscale.PublicID p')]>
                (<["password" := bytes (planetscale.PlainText p')]>
                (<["database" := bytes database']> ∅))) |},
           err)
    end
  | None => ret ({| managed.ConnectionDetails := ∅ |},
              Some (errors.New errNotPassword))
  end.

Definition Update (c : external)
  : Go (managed.ExternalUpdate * option error) :=
  ret ({| managed.UpdateConnectionDetails := ∅ |}, None).

Definition Delete (c : external) : Go (option error) :=
  do mg <- load;
  match asPassword mg with
  | Some cr =>
    do cli <- client c;
    do database <- deref (Database (ForProvider (Spec cr)));
    request (planetscale.Passwords_Delete cli)
      planetscale.PasswordsDelete (deleteRequest cr database)
  | None => ret (Some (errors.New errNotPassword))
  end.

End password.

(* ===================================================================== *)
(** ** internal/controller/database *)

Module database.

Import databasev1alpha1.

Definition errNotDatabase := "managed resource is not a Database custom resource".
Definition errTrackPCUsage := "cannot track ProviderConfig usage".
Definition errGetPC := "cannot get ProviderConfig".
Definition errGetCreds := "cannot get credentials".
Definition errNewClient := "cannot create new Service".

Record PlanetScaleService := { pCLI : option planetscale.Client }.

(** The default service constructor. [NewClient token] stands for the
    library call planetscale.NewClient(planetscale.WithAccessToken(token));
    the credential bytes are converted with [string(creds)]. The service
    is allocated whether or not the library call failed. *)
Definition newPlanetScaleService
    (NewClient : string -> option planetscale.Client * option error)
    (creds : list Byte.byte) : option PlanetScaleService * option error :=
  let '(c, err) := NewClient (string_of_list_byte creds) in
  (Some {| pCLI := c |}, err).

(** The connector's three collaborators. [newServiceFn] is handed the
    credential bytes and nothing else. *)
Record connector := {
  kube : kube.Client;
  usage : kube.Tracker;
  newServiceFn :
    list Byte.byte -> option PlanetScaleService * option error }.

Record external := { service : option PlanetScaleService }.

(** The type assertion of [mg] to a pointer to v1alpha1.Database: the
    resource and ok = true ([Some]), or ok = false ([None]). *)
Definition asDatabase (mg : resource.Managed) : option Database :=
  match mg with
  | resource.DatabaseCR cr => Some cr
  | _ => None
  end.

(** [c.service.pCLI]: two pointers are followed. *)
Definition client (c : external) : Go planetscale.Client :=
  do svc <- deref (service c);
  deref (pCLI svc).

(** An external client whose service and API client are both non-nil. *)
Definition connected (cli : planetscale.Client) : external :=
  {| service := Some {| pCLI := Some cli |} |}.

(** The message Connect wraps a failure of each step with. *)
Definition stageMessage (st : stage) : string :=
  match st with
  | StageTrackUsage => errTrackPCUsage
  | StageGetProviderConfig => errGetPC
  | StageGetCredentials => errGetCreds
  | StageNewService => errNewClient
  end.

(** The three request literals. *)
Definition getRequest (cr : Database) : planetscale.GetDatabaseRequest :=
  {| planetscale.gd_Organization := Organization (ForProvider (Spec cr));
     planetscale.gd_Database := meta.GetExternalName (ObjectMeta cr) |}.

Definition createRequest (cr : Database) (notes region : string)
  : planetscale.CreateDatabaseRequest :=
  {| planetscale.cd_Organization := Organization (ForProvider (Spec cr));
     planetscale.cd_Name := meta.GetExternalName (ObjectMeta cr);
     planetscale.cd_Notes := notes;
     planetscale.cd_Region := region |}.

Definition deleteRequest (cr : Database) : planetscale.DeleteDatabaseRequest :=
  {| planetscale.dd_Organization := Organization (ForProvider (Spec cr));
     planetscale.dd_Database := meta.GetExternalName (ObjectMeta cr) |}.

Definition Connect (c : connector)
  : Go (option external * option error) :=
  do mg <- load;
  match asDatabase mg with
  | Some cr =>
    do terr <- kuberequest (fun h => kube.Track (usage c) h mg)
                 (kube.TrackUsage mg);
    match terr with
    | Some err => ret (None, Some (errors.Wrap err errTrackPCUsage))
    | None =>
      do ref <- deref (xpv1.ProviderConfigReference (ResourceSpec (Spec cr)));
      do (pc, gerr) <- kuberequest
                         (fun h => kube.Get (kube c) h (xpv1.Name ref))
                         (kube.GetProviderConfig (xpv1.Name ref));
      match gerr with
      | Some err => ret (None, Some (errors.Wrap err errGetPC))
      | None =>
        let cd := apisv1alpha1.Credentials (apisv1alpha1.Spec pc) in
        let source := apisv1alpha1.Source cd in
        let selectors := apisv1alpha1.CommonCredentialSelectors cd in
        do (data, cerr) <- kuberequest
               (fun h => kube.CommonCredentialExtractor (kube c) h
                           source selectors)
               (kube.ExtractCredentials source selectors);
        match cerr with
        | Some err => ret (None, Some (errors.Wrap err errGetCreds))
        | None =>
          let '(svc, nerr) := newServiceFn c data in
          match nerr with
          | Some err => ret (None, Some (errors.Wrap err errNewClient))
          | None => ret (Some {| service := svc |}, None)
          end
        end
      end
    end
  | None => ret (None, Some (errors.New errNotDatabase))
  end.

(** [fails c s cr st err]: on a run of Connect from store [s], step [st]
    is the first one to fail, and it fails with [err]. Each step is
    answered on the Kubernetes requests made before it. *)
Inductive fails (c : connector) (s : Store) (cr : Database)
  : stage -> error -> Prop :=
| fails_track err :
    kube.Track (usage c) (kubelog s) (resource.DatabaseCR cr) = Some err ->
    fails c s cr StageTrackUsage err
| fails_get ref pc err :
    kube.Track (usage c) (kubelog s) (resource.DatabaseCR cr) = None ->
    xpv1.ProviderConfigReference (ResourceSpec (Spec cr)) = Some ref ->
    kube.Get (kube c)
      (kubelog s ++ [kube.TrackUsage (resource.DatabaseCR cr)])
      (xpv1.Name ref) = (pc, Some err) ->
    fails c s cr StageGetProviderConfig err
| fails_creds ref pc data err :
    kube.Track (usage c) (kubelog s) (resource.DatabaseCR cr) = None ->
    xpv1.ProviderConfigReference (ResourceSpec (Spec cr)) = Some ref ->
    kube.Get (kube c)
      (kubelog s ++ [kube.TrackUsage (resource.DatabaseCR cr)])
      (xpv1.Name ref) = (pc, None) ->
    kube.CommonCredentialExtractor (kube c)
      ((kubelog s ++ [kube.TrackUsage (resource.DatabaseCR cr)])
         ++ [kube.GetProviderConfig (xpv1.Name ref)])
      (apisv1alpha1.Source (apisv1alpha1.Credentials (apisv1alpha1.Spec pc)))
      (apisv1alpha1.CommonCredentialSelectors
         (apisv1alpha1.Credentials (apisv1alpha1.Spec pc)))
    = (data, Some err) ->
    fails c s cr StageGetCredentials err
| fails_new ref pc data svc err :
    kube.Track (usage c) (kubelog s) (resource.DatabaseCR cr) = None ->
    xpv1.ProviderConfigReference (ResourceSpec (Spec cr)) = Some ref ->
    kube.Get (kube c)
      (kubelog s ++ [kube.TrackUsage (resource.DatabaseCR cr)])
      (xpv1.Name ref) = (pc, None) ->
    kube.CommonCredentialExtractor (kube c)
      ((kubelog s ++ [kube.TrackUsage (resource.DatabaseCR cr)])
         ++ [kube.GetProviderConfig (xpv1.Name ref)])
      (apisv1alpha1.Source (apisv1alpha1.Credentials (apisv1alpha1.Spec pc)))
      (apisv1alpha1.CommonCredentialSelectors
         (apisv1alpha1.Credentials (apisv1alpha1.Spec pc)))
    = (data, None) ->
    newServiceFn c data = (svc, Some err) ->
    fails c s cr StageNewService err.

(** [cr.Status.SetConditions(c)] *)
Definition SetConditions (cr : Database) (c : xpv1.Condition) : Database :=
  {| ObjectMeta := ObjectMeta cr;
     Spec := Spec cr;
     Status :=
       {| ResourceStatus :=
            {| xpv1.Conditions :=
                 xpv1.SetConditions
                   (xpv1.Conditions (ResourceStatus (Status cr))) c |};
          AtProvider := AtProvider (Status cr) |} |}.

Definition Observe (c : external)
  : Go (managed.ExternalObservation * option error) :=
  do mg <- load;
  match asDatabase mg with
  | Some cr =>
    do cli <- client c;
    do (db, err) <- request (planetscale.Databases_Get cli)
                      planetscale.DatabasesGet (getRequest cr);
    if isNotFound err
    then ret (managed.Observation false false, None)
    else
      do db' <- deref db;
      do _ <- (if String.eqb (planetscale.State db') planetscale.DatabaseReady
               then store (resource.DatabaseCR
                             (SetConditions cr xpv1.Available))
               else ret tt);
      ret (managed.Observation true true, None)
  | None => ret (managed.Observation false false,
              Some (errors.New errNotDatabase))
  end.

Definition Create (c : external)
  : Go (managed.ExternalCreation * option error) :=
  do mg <- load;
  match asDatabase mg with
  | Some cr =>
    let notes := match Notes (ForProvider (Spec cr)) with
                 | Some n => n
                 | None => ""
                 end in
    let region := match Region (ForProvider (Spec cr)) with
                  | Some r => r
                  | None => ""
                  end in
    do cli <- client c;
    do (db, err) <- request (planetscale.Databases_Create cli)
                      planetscale.DatabasesCreate
                      (createRequest cr notes region);
    match err with
    | Some e => ret ({| managed.ConnectionDetails := ∅ |}, Some e)
    | None =>
      do db' <- deref db;
      do _ <- store (resource.DatabaseCR
                {| ObjectMeta := ObjectMeta cr;
                   Spec := Spec cr;
                   Status :=
                     {| ResourceStatus := ResourceStatus (Status cr);
                        AtProvider := {| State := planetscale.State db' |} |}
                |});
      ret ({| managed.ConnectionDetails := ∅ |}, None)
    end
  | None => ret ({| managed.ConnectionDetails := ∅ |},
              Some (errors.New errNotDatabase))
  end.

Definition Update (c : external)
  : Go (managed.ExternalUpdate * option error) :=
  ret ({| managed.UpdateConnectionDetails := ∅ |}, None).

Definition Delete (c : external) : Go (option error) :=
  do mg <- load;
  match asDatabase mg with
  | Some cr =>
    do cli <- client c;
    request (planetscale.Databases_Delete cli)
      planetscale.DatabasesDelete (deleteRequest cr)
  | None => ret (Some (errors.New errNotDatabase))
  end.

End database.

(* ===================================================================== *)
(** ** Sample data *)

Module sample.

(** An external system that gives the same six answers whatever it is
    asked. *)
Definition fixed
    (dget dcreate : option planetscale.Database * option error)
    (ddelete : option error)
    (pget pcreate : option planetscale.DatabaseBranchPassword * option error)
    (pdelete : option error) : planetscale.Client :=
  {| planetscale.Databases_Get := fun _ _ => dget;
     planetscale.Databases_Create := fun _ _ => dcreate;
     planetscale.Databases_Delete := fun _ _ => ddelete;
     planetscale.Passwords_Get := fun _ _ => pget;
     planetscale.Passwords_Create := fun _ _ => pcreate;
     planetscale.Passwords_Delete := fun _ _ => pdelete |}.

Definition notFound : error := PlanetScaleError ErrNotFound "Not Found".
Definition timeout : error := Fundamental "i/o timeout".

Definition shopDB : planetscale.Database :=
  {| planetscale.State := "ready" |}.

Definition secret (name : string) : planetscale.DatabaseBranchPassword :=
  {| planetscale.PublicID := "pw-7f3a";
     planetscale.Name := name;
     planetscale.PlainText := "pscale_pw_x";
     planetscale.Branch :=
       {| planetscale.AccessHostURL := "aws.connect.psdb.cloud" |} |}.

Definition objectMeta (externalName : string) : metav1.ObjectMeta :=
  {| metav1.Name := "app-pw";
     metav1.Annotations :=
       {[ meta.AnnotationKeyExternalName := externalName ]} |}.

Definition resourceSpec : xpv1.ResourceSpec :=
  {| xpv1.ProviderConfigReference := Some {| xpv1.Name := "default" |} |}.

Definition passwordCR (externalName : string) : branchv1alpha1.Password :=
  {| branchv1alpha1.ObjectMeta := objectMeta externalName;
     branchv1alpha1.Spec :=
       {| branchv1alpha1.ResourceSpec := resourceSpec;
          branchv1alpha1.ForProvider :=
            {| branchv1alpha1.Organization := "acme";
               branchv1alpha1.Database := Some "shop";
               branchv1alpha1.Branch := "main" |} |};
     branchv1alpha1.Status :=
       {| branchv1alpha1.ResourceStatus := {| xpv1.Conditions := [] |};
          branchv1alpha1.AtProvider := {| branchv1alpha1.ID := "" |} |} |}.

Definition databaseCR (externalName : string) : databasev1alpha1.Database :=
  {| databasev1alpha1.ObjectMeta := objectMeta externalName;
     databasev1alpha1.Spec :=
       {| databasev1alpha1.ResourceSpec := resourceSpec;
          databasev1alpha1.ForProvider :=
            {| databasev1alpha1.Organization := "acme";
               databasev1alpha1.Notes := None;
               databasev1alpha1.Region := Some "us-east" |} |};
     databasev1alpha1.Status :=
       {| databasev1alpha1.ResourceStatus := {| xpv1.Conditions := [] |};
          databasev1alpha1.AtProvider := {| databasev1alpha1.State := "" |} |} |}.

Definition providerConfig : apisv1alpha1.ProviderConfig :=
  {| apisv1alpha1.Spec :=
       {| apisv1alpha1.Credentials :=
            {| apisv1alpha1.Source := "Secret";
               apisv1alpha1.CommonCredentialSelectors := "planetscale-creds" |} |} |}.

(** A Kubernetes side with fixed answers to Get and to the credential
    extractor, and a usage tracker with a fixed answer. *)
Definition kubeClient (gerr cerr : option error) : kube.Client :=
  {| kube.Get := fun _ _ => (providerConfig, gerr);
     kube.CommonCredentialExtractor :=
       fun _ _ _ => (bytes "pscale_tkn", cerr) |}.

Definition tracker (terr : option error) : kube.Tracker :=
  {| kube.Track := fun _ _ => terr |}.

Definition forbidden : error := Fundamental "forbidden".

(** Connectors whose four steps give the four answers passed in; the
    service built has a nil API client. *)
Definition passwordConnector (terr gerr cerr nerr : option error)
  : password.connector :=
  {| password.kube := kubeClient gerr cerr;
     password.usage := tracker terr;
     password.newServiceFn :=
       fun _ => (Some {| password.pCLI := None |}, nerr) |}.

Definition databaseConnector (terr gerr cerr nerr : option error)
  : database.connector :=
  {| database.kube := kubeClient gerr cerr;
     database.usage := tracker terr;
     database.newServiceFn :=
       fun _ => (Some {| database.pCLI := None |}, nerr) |}.

(** What Create of the Password client returns once the API has created
    [secret]. *)
Definition created : managed.ExternalCreation :=
  {| managed.ConnectionDetails :=
       <["host" := bytes "aws.connect.psdb.cloud"]>
       (<["username" := bytes "pw-7f3a"]>
       (<["password" := bytes "pscale_pw_x"]>
       (<["database" := bytes "shop"]> ∅))) |}.

(** A resource of some other managed kind. *)
Definition bucket : resource.Managed := resource.OtherCR (objectMeta "bkt-1").

(** The library constructor of the API client: it rejects the empty
    token and otherwise hands out [cli]. *)
Definition newClient (cli : planetscale.Client) (token : string)
  : option planetscale.Client * option error :=
  if String.eqb token "" then (None, Some (Fundamental "missing access token"))
  else (Some cli, None).

(** The all-nil API: every method answers nil. *)
Definition silent : planetscale.Client :=
  fixed (None, None) (None, None) None (None, None) (None, None) None.

(** Connectors wired with the default service constructor. *)
Definition wiredPassword (cli : planetscale.Client) (cerr : option error)
  : password.connector :=
  {| password.kube := kubeClient None cerr;
     password.usage := tracker None;
     password.newServiceFn := password.newPlanetScaleService (newClient cli) |}.

Definition wiredDatabase (cli : planetscale.Client) (cerr : option error)
  : database.connector :=
  {| database.kube := kubeClient None cerr;
     database.usage := tracker None;
     database.newServiceFn := database.newPlanetScaleService (newClient cli) |}.

(** A Password whose database pointer is nil, a Database whose
    ProviderConfig reference is nil. *)
Definition passwordNoDatabase : branchv1alpha1.Password :=
  {| branchv1alpha1.ObjectMeta := objectMeta "pw-old";
     branchv1alpha1.Spec :=
       {| branchv1alpha1.ResourceSpec := resourceSpec;
          branchv1alpha1.ForProvider :=
            {| branchv1alpha1.Organization := "acme";
               branchv1alpha1.Database := None;
               branchv1alpha1.Branch := "main" |} |};
     branchv1alpha1.Status :=
       {| branchv1alpha1.ResourceStatus := {| xpv1.Conditions := [] |};
          branchv1alpha1.AtProvider := {| branchv1alpha1.ID := "" |} |} |}.

Definition databaseNoReference : databasev1alpha1.Database :=
  {| databasev1alpha1.ObjectMeta := objectMeta "shop";
     databasev1alpha1.Spec :=
       {| databasev1alpha1.ResourceSpec :=
            {| xpv1.ProviderConfigReference := None |};
          databasev1alpha1.ForProvider :=
            {| databasev1alpha1.Organization := "acme";
               databasev1alpha1.Notes := None;
               databasev1alpha1.Region := None |} |};
     databasev1alpha1.Status :=
       {| databasev1alpha1.ResourceStatus := {| xpv1.Conditions := [] |};
          databasev1alpha1.AtProvider := {| databasev1alpha1.State := "" |} |} |}.

(** A store holding [mg], before any request was sent. *)
Definition fresh (mg : resource.Managed) : Store :=
  {| object := mg; api := []; kubelog := [] |}.

End sample.

(* ===================================================================== *)
(** * Properties *)

(** Running a computation: the monad's operations are unfolded and the
    store is reduced. *)
Ltac run :=
  unfold password.Observe, password.Create, password.Update, password.Delete,
         password.Connect, password.client, password.connected,
         database.Observe, database.Create, database.Update, database.Delete,
         database.Connect, database.client, database.connected,
         bind, ret, load, store, deref, request, kuberequest;
  simpl.

Section Equations.

Variable cli : planetscale.Client.
Variable s : Store.

(** Observe of the Password client on a Password whose database pointer
    is set: one Get, then the three-way split on its answer. *)
Lemma password_Observe_run cr d :
  object s = resource.PasswordCR cr ->
  branchv1alpha1.Database
    (branchv1alpha1.ForProvider (branchv1alpha1.Spec cr)) = Some d ->
  password.Observe (password.connected cli) s =
  let q := password.getRequest cr d in
  let s' := sent s (planetscale.PasswordsGet q) in
  match planetscale.Passwords_Get cli (api s) q with
  | (p, err) =>
    if isNotFound err then (Returned (managed.Observation false false, None), s')
    else match p with
         | Some p' =>
           (Returned
              (managed.Observation true
                 (negb (String.eqb (planetscale.Name p')
                          (metav1.Name (branchv1alpha1.ObjectMeta cr)))),
               err), s')
         | None => (Panicked NilDereference, s')
         end
  end.
Proof.
  intros Hobj Hdb. run. rewrite Hobj. simpl. rewrite Hdb. simpl.
  destruct (planetscale.Passwords_Get cli (api s) _) as [p err].
  destruct (isNotFound err); [reflexivity|].
  destruct p; reflexivity.
Qed.

(** Observe of the Database client on a Database: one Get, then the
    split on its answer; the error is not looked at again. *)
Lemma database_Observe_run cr :
  object s = resource.DatabaseCR cr ->
  database.Observe (database.connected cli) s =
  let q := database.getRequest cr in
  let s' := sent s (planetscale.DatabasesGet q) in
  match planetscale.Databases_Get cli (api s) q with
  | (db, err) =>
    if isNotFound err then (Returned (managed.Observation false false, None), s')
    else match db with
         | Some db' =>
           (Returned (managed.Observation true true, None),
            if String.eqb (planetscale.State db') planetscale.DatabaseReady
            then {| object := resource.DatabaseCR
                                (database.SetConditions cr xpv1.Available);
                    api := api s'; kubelog := kubelog s' |}
            else s')
         | None => (Panicked NilDereference, s')
         end
  end.
Proof.
  intros Hobj. run. rewrite Hobj. simpl.
  destruct (planetscale.Databases_Get cli (api s) _) as [db err].
  destruct (isNotFound err); [reflexivity|].
  destruct db as [db'|]; [|reflexivity]. simpl.
  destruct (String.eqb _ _); reflexivity.
Qed.

(** Delete hands the answer of the API's delete call to its caller. *)
Lemma password_Delete_run cr d :
  object s = resource.PasswordCR cr ->
  branchv1alpha1.Database
    (branchv1alpha1.ForProvider (branchv1alpha1.Spec cr)) = Some d ->
  password.Delete (password.connected cli) s =
  (Returned (planetscale.Passwords_Delete cli (api s)
               (password.deleteRequest cr d)),
   sent s (planetscale.PasswordsDelete (password.deleteRequest cr d))).
Proof. intros Hobj Hdb. run. rewrite Hobj. simpl. rewrite Hdb. reflexivity. Qed.

Lemma database_Delete_run cr :
  object s = resource.DatabaseCR cr ->
  database.Delete (database.connected cli) s =
  (Returned (planetscale.Databases_Delete cli (api s)
               (database.deleteRequest cr)),
   sent s (planetscale.DatabasesDelete (database.deleteRequest cr))).
Proof. intros Hobj. run. rewrite Hobj. reflexivity. Qed.

End Equations.

(* --------------------------------------------------------------------- *)
(** ** Observe and the not-found sentinel *)

(** C5. For both clients, when the external query of Observe answers with
    the not-found sentinel (a planetscale error whose code is ErrNotFound),
    whatever value comes with it, Observe returns the observation with
    ResourceExists = false together with a nil error. *)
Theorem Observe_not_found_is_absent
    (cli : planetscale.Client) (s : Store) (msg : string) :
  (forall cr db,
      object s = resource.DatabaseCR cr ->
      planetscale.Databases_Get cli (api s) (database.getRequest cr)
      = (db, Some (PlanetScaleError ErrNotFound msg)) ->
      fst (database.Observe (database.connected cli) s)
      = Returned (managed.Observation false false, None))
  /\
  (forall cr d p,
      object s = resource.PasswordCR cr ->
      branchv1alpha1.Database
        (branchv1alpha1.ForProvider (branchv1alpha1.Spec cr)) = Some d ->
      planetscale.Passwords_Get cli (api s) (password.getRequest cr d)
      = (p, Some (PlanetScaleError ErrNotFound msg)) ->
      fst (password.Observe (password.connected cli) s)
      = Returned (managed.Observation false false, None)).
Proof.
  split.
  - intros cr db Hobj Hget.
    rewrite (database_Observe_run cli s cr Hobj); cbv zeta.
    rewrite Hget. reflexivity.
  - intros cr d p Hobj Hdb Hget.
    rewrite (password_Observe_run cli s cr d Hobj Hdb); cbv zeta.
    rewrite Hget. reflexivity.
Qed.

Lemma Observe_not_found_is_absent_witness :
  fst (database.Observe
         (database.connected
            (sample.fixed (None, Some sample.notFound) (None, None) None
                          (None, None) (None, None) None))
         (sample.fresh (resource.DatabaseCR (sample.databaseCR "shop"))))
  = Returned (managed.Observation false false, None)
  /\
  fst (password.Observe
         (password.connected
            (sample.fixed (None, None) (None, None) None
                          (None, Some sample.notFound) (None, None) None))
         (sample.fresh (resource.PasswordCR (sample.passwordCR "pw-7f3a"))))
  = Returned (managed.Observation false false, None).
Proof.
  split.
  - apply (proj1 (Observe_not_found_is_absent _ _ "Not Found")
             (sample.databaseCR "shop") None); reflexivity.
  - apply (proj2 (Observe_not_found_is_absent _ _ "Not Found")
             (sample.passwordCR "pw-7f3a") "shop" None); reflexivity.
Defined.

(* --------------------------------------------------------------------- *)
(** ** Update *)

(** C6. For both resource kinds, for every client, every managed resource
    and every history, Update returns the empty update with a nil error and
    leaves the store as it found it: no request is sent to the external
    system (nor to Kubernetes), and the resource is not touched. *)
Theorem Update_succeeds_without_calls :
  (forall (c : database.external) (s : Store),
      fst (database.Update c s)
      = Returned ({| managed.UpdateConnectionDetails := ∅ |}, None)
      /\ snd (database.Update c s) = s
      /\ api (snd (database.Update c s)) = api s)
  /\
  (forall (c : password.external) (s : Store),
      fst (password.Update c s)
      = Returned ({| managed.UpdateConnectionDetails := ∅ |}, None)
      /\ snd (password.Update c s) = s
      /\ api (snd (password.Update c s)) = api s).
Proof. split; intros c s; repeat split. Qed.

(* --------------------------------------------------------------------- *)
(** ** Delete *)

(** C3, as the code has it. For both clients, Delete returns the error of
    the external delete call unchanged: it succeeds exactly when that call
    succeeds, and a not-found answer comes back to the caller as that
    not-found error. *)
Theorem Delete_returns_the_api_error
    (cli : planetscale.Client) (s : Store) :
  (forall cr,
      object s = resource.DatabaseCR cr ->
      fst (database.Delete (database.connected cli) s)
      = Returned (planetscale.Databases_Delete cli (api s)
                    (database.deleteRequest cr)))
  /\
  (forall cr d,
      object s = resource.PasswordCR cr ->
      branchv1alpha1.Database
        (branchv1alpha1.ForProvider (branchv1alpha1.Spec cr)) = Some d ->
      fst (password.Delete (password.connected cli) s)
      = Returned (planetscale.Passwords_Delete cli (api s)
                    (password.deleteRequest cr d))).
Proof.
  split.
  - intros cr Hobj. now rewrite (database_Delete_run cli s cr Hobj).
  - intros cr d Hobj Hdb. now rewrite (password_Delete_run cli s cr d Hobj Hdb).
Qed.

Lemma Delete_returns_the_api_error_witness :
  fst (database.Delete
         (database.connected
            (sample.fixed (None, None) (None, None) None
                          (None, None) (None, None) None))
         (sample.fresh (resource.DatabaseCR (sample.databaseCR "shop"))))
  = Returned None
  /\
  fst (password.Delete
         (password.connected
            (sample.fixed (None, None) (None, None) None
                          (None, None) (None, None) (Some sample.notFound)))
         (sample.fresh (resource.PasswordCR (sample.passwordCR "pw-7f3a"))))
  = Returned (Some sample.notFound).
Proof.
  split.
  - exact (proj1 (Delete_returns_the_api_error
                    (sample.fixed (None, None) (None, None) None
                                  (None, None) (None, None) None)
                    (sample.fresh
                       (resource.DatabaseCR (sample.databaseCR "shop"))))
             (sample.databaseCR "shop") eq_refl).
  - exact (proj2 (Delete_returns_the_api_error
                    (sample.fixed (None, None) (None, None) None
                                  (None, None) (None, None)
                                  (Some sample.notFound))
                    (sample.fresh
                       (resource.PasswordCR (sample.passwordCR "pw-7f3a"))))
             (sample.passwordCR "pw-7f3a") "shop" eq_refl eq_refl).
Defined.

(** C3 fails as stated: with the external resource already absent, the
    delete call of either API answers not-found, and Delete returns that
    error instead of nil. *)
Lemma Delete_of_absent_resource_fails :
  fst (database.Delete
         (database.connected
            (sample.fixed (None, None) (None, None) (Some sample.notFound)
                          (None, None) (None, None) None))
         (sample.fresh (resource.DatabaseCR (sample.databaseCR "shop"))))
  <> Returned None
  /\
  fst (password.Delete
         (password.connected
            (sample.fixed (None, None) (None, None) None
                          (None, None) (None, None) (Some sample.notFound)))
         (sample.fresh (resource.PasswordCR (sample.passwordCR "pw-7f3a"))))
  <> Returned None.
Proof. split; vm_compute; discriminate. Qed.

(* --------------------------------------------------------------------- *)
(** ** Observe and the other query errors *)

(** Whatever the external query answers, Observe of the Database client
    never returns an error for a Database resource: its last return
    statement has a literal nil in the error position. *)
Lemma database_Observe_returns_no_error (c : database.external) (s : Store)
    (cr : databasev1alpha1.Database) r e :
  object s = resource.DatabaseCR cr ->
  fst (database.Observe c s) = Returned (r, e) ->
  e = None.
Proof.
  intros Hobj. run. rewrite Hobj. simpl.
  destruct (database.service c) as [[[cli|]]|]; simpl; try discriminate.
  destruct (planetscale.Databases_Get cli (api s) _) as [db err].
  destruct (isNotFound err); simpl; [congruence|].
  destruct db as [db'|]; simpl; [|discriminate].
  destruct (String.eqb _ _); simpl; congruence.
Qed.

(** A query error that is not the sentinel and comes with a nil value, as
    a failed Get of the API client returns it, makes either Observe panic
    on the nil value instead of returning the error. *)
Lemma Observe_panics_on_failed_query (cli : planetscale.Client) (s : Store)
    (e : error) :
  isNotFound (Some e) = false ->
  (forall cr,
      object s = resource.DatabaseCR cr ->
      planetscale.Databases_Get cli (api s) (database.getRequest cr)
      = (None, Some e) ->
      fst (database.Observe (database.connected cli) s)
      = Panicked NilDereference)
  /\
  (forall cr d,
      object s = resource.PasswordCR cr ->
      branchv1alpha1.Database
        (branchv1alpha1.ForProvider (branchv1alpha1.Spec cr)) = Some d ->
      planetscale.Passwords_Get cli (api s) (password.getRequest cr d)
      = (None, Some e) ->
      fst (password.Observe (password.connected cli) s)
      = Panicked NilDereference).
Proof.
  intros Hnf. split.
  - intros cr Hobj Hget.
    rewrite (database_Observe_run cli s cr Hobj); cbv zeta.
    rewrite Hget, Hnf. reflexivity.
  - intros cr d Hobj Hdb Hget.
    rewrite (password_Observe_run cli s cr d Hobj Hdb); cbv zeta.
    rewrite Hget, Hnf. reflexivity.
Qed.

(** C2, where the code departs from it. The external query fails with a
    transport error (not the sentinel). The Database client's Observe
    panics on the nil database that comes with the error; when a database
    value does come with the error, it reports an existing, up-to-date
    resource with a nil error. The Password client's Observe panics on the
    nil password before it can return the error. *)
Theorem Observe_loses_the_query_error :
  fst (database.Observe
         (database.connected
            (sample.fixed (None, Some sample.timeout) (None, None) None
                          (None, None) (None, None) None))
         (sample.fresh (resource.DatabaseCR (sample.databaseCR "shop"))))
  = Panicked NilDereference
  /\
  fst (database.Observe
         (database.connected
            (sample.fixed (Some sample.shopDB, Some sample.timeout)
                          (None, None) None (None, None) (None, None) None))
         (sample.fresh (resource.DatabaseCR (sample.databaseCR "shop"))))
  = Returned (managed.Observation true true, None)
  /\
  fst (password.Observe
         (password.connected
            (sample.fixed (None, None) (None, None) None
                          (None, Some sample.timeout) (None, None) None))
         (sample.fresh (resource.PasswordCR (sample.passwordCR "pw-7f3a"))))
  = Panicked NilDereference.
Proof. repeat split. Qed.

(** C9, where the code departs from it. The Get of the Database client's
    Observe answers with a nil database and an internal error of the API.
    The request is sent, the error is not the sentinel, and the read of
    the State field of the nil database panics. *)
Theorem database_Observe_reads_State_of_nil :
  database.Observe
    (database.connected
       (sample.fixed (None, Some (PlanetScaleError ErrInternal "internal error"))
                     (None, None) None (None, None) (None, None) None))
    (sample.fresh (resource.DatabaseCR (sample.databaseCR "shop")))
  = (Panicked NilDereference,
     sent (sample.fresh (resource.DatabaseCR (sample.databaseCR "shop")))
          (planetscale.DatabasesGet
             (database.getRequest (sample.databaseCR "shop")))).
Proof. reflexivity. Qed.

(* --------------------------------------------------------------------- *)
(** ** Observe of the Password client and the display name *)

(** On a successful query, the observation's ResourceUpToDate is the result
    of the comparison [p.Name != cr.GetName()]. *)
Lemma password_Observe_upToDate (cli : planetscale.Client) (s : Store) cr d p :
  object s = resource.PasswordCR cr ->
  branchv1alpha1.Database
    (branchv1alpha1.ForProvider (branchv1alpha1.Spec cr)) = Some d ->
  planetscale.Passwords_Get cli (api s) (password.getRequest cr d)
  = (Some p, None) ->
  fst (password.Observe (password.connected cli) s)
  = Returned
      (managed.Observation true
         (negb (String.eqb (planetscale.Name p)
                  (metav1.Name (branchv1alpha1.ObjectMeta cr)))),
       None).
Proof.
  intros Hobj Hdb Hget.
  rewrite (password_Observe_run cli s cr d Hobj Hdb); cbv zeta.
  rewrite Hget. reflexivity.
Qed.

(** C1, where the code departs from it. The resource is named "app-pw".
    When the password found has that same display name, Observe reports
    ResourceUpToDate = false; when the password found is named
    "other-pw", Observe reports ResourceUpToDate = true. *)
Theorem password_Observe_upToDate_is_inverted :
  fst (password.Observe
         (password.connected
            (sample.fixed (None, None) (None, None) None
                          (Some (sample.secret "app-pw"), None)
                          (None, None) None))
         (sample.fresh (resource.PasswordCR (sample.passwordCR "pw-7f3a"))))
  = Returned (managed.Observation true false, None)
  /\
  fst (password.Observe
         (password.connected
            (sample.fixed (None, None) (None, None) None
                          (Some (sample.secret "other-pw"), None)
                          (None, None) None))
         (sample.fresh (resource.PasswordCR (sample.passwordCR "pw-7f3a"))))
  = Returned (managed.Observation true true, None).
Proof. split; reflexivity. Qed.

(* --------------------------------------------------------------------- *)
(** ** The ExternalName annotation *)

(** Splitting on whatever a run branches on. *)
Ltac branch :=
  repeat match goal with
         | |- context [match ?x with _ => _ end] =>
           lazymatch x with
           | context [match _ with _ => _ end] => fail
           | _ => destruct x eqn:?; simpl
           end
         end.

(** Setting conditions or the observed fields leaves the metadata alone. *)
Lemma externalName_sent s c : externalName (sent s c) = externalName s.
Proof. reflexivity. Qed.

Section ExternalName.

Variable s : Store.

Lemma database_Observe_keeps_name c :
  externalName (snd (database.Observe c s)) = externalName s.
Proof.
  destruct c as [[[[cli|]]|]]; run;
    destruct (object s) eqn:Hobj; simpl; branch;
    unfold externalName; simpl; rewrite ?Hobj; reflexivity.
Qed.

Lemma database_Create_keeps_name c :
  externalName (snd (database.Create c s)) = externalName s.
Proof.
  destruct c as [[[[cli|]]|]]; run;
    destruct (object s) eqn:Hobj; simpl; branch;
    unfold externalName; simpl; rewrite ?Hobj; reflexivity.
Qed.

Lemma database_Delete_keeps_name c :
  externalName (snd (database.Delete c s)) = externalName s.
Proof.
  destruct c as [[[[cli|]]|]]; run;
    destruct (object s) eqn:Hobj; simpl; branch;
    unfold externalName; simpl; rewrite ?Hobj; reflexivity.
Qed.

Lemma password_Observe_keeps_name c :
  externalName (snd (password.Observe c s)) = externalName s.
Proof.
  destruct c as [[[[cli|]]|]]; run;
    destruct (object s) eqn:Hobj; simpl; branch;
    unfold externalName; simpl; rewrite ?Hobj; reflexivity.
Qed.

Lemma password_Delete_keeps_name c :
  externalName (snd (password.Delete c s)) = externalName s.
Proof.
  destruct c as [[[[cli|]]|]]; run;
    destruct (object s) eqn:Hobj; simpl; branch;
    unfold externalName; simpl; rewrite ?Hobj; reflexivity.
Qed.

(** Create of the Password client, when it succeeds, has stored the
    public ID of the new password as the ExternalName ... *)
Lemma password_Create_sets_name cli cr d p :
  object s = resource.PasswordCR cr ->
  branchv1alpha1.Database
    (branchv1alpha1.ForProvider (branchv1alpha1.Spec cr)) = Some d ->
  planetscale.Passwords_Create cli (api s) (password.createRequest cr d)
  = (Some p, None) ->
  (exists r, fst (password.Create (password.connected cli) s)
             = Returned (r, None))
  /\ externalName (snd (password.Create (password.connected cli) s))
     = planetscale.PublicID p.
Proof.
  intros Hobj Hdb Hans. run. rewrite Hobj. simpl. rewrite Hdb. simpl.
  rewrite Hans. simpl. rewrite ?Hdb. simpl. split; [eexists; reflexivity|].
  unfold externalName, meta.GetExternalName. simpl.
  now rewrite lookup_insert_eq.
Qed.

(** ... and when it does not succeed, it has left the annotation as it
    was. *)
Lemma password_Create_failure_keeps_name c :
  (forall r, fst (password.Create c s) <> Returned (r, None)) ->
  externalName (snd (password.Create c s)) = externalName s.
Proof.
  destruct c as [[[[cli|]]|]]; run;
    destruct (object s) eqn:Hobj; simpl; branch; intros Hfail;
    try reflexivity.
  exfalso. eapply Hfail. reflexivity.
Qed.

End ExternalName.

(** A successful Create of the Password client, read backwards: the client
    was connected, the resource is a Password with its database pointer
    set, the API answered with a password and no error, the resource now
    carries that password's public ID, and the connection details are the
    four entries of the map literal. *)
Lemma password_Create_success (c : password.external) (s : Store) r :
  fst (password.Create c s) = Returned (r, None) ->
  exists cli cr d p,
    c = password.connected cli
    /\ object s = resource.PasswordCR cr
    /\ branchv1alpha1.Database
         (branchv1alpha1.ForProvider (branchv1alpha1.Spec cr)) = Some d
    /\ planetscale.Passwords_Create cli (api s) (password.createRequest cr d)
       = (Some p, None)
    /\ externalName (snd (password.Create c s)) = planetscale.PublicID p
    /\ managed.ConnectionDetails r
       = <["host" := bytes (planetscale.AccessHostURL (planetscale.Branch p))]>
         (<["username" := bytes (planetscale.PublicID p)]>
         (<["password" := bytes (planetscale.PlainText p)]>
         (<["database" := bytes d]> ∅))).
Proof.
  destruct c as [[[[cli|]]|]]; run;
    destruct (object s) as [cr| |] eqn:Hobj; simpl; try discriminate.
  destruct (branchv1alpha1.Database _) as [d|] eqn:Hdb; simpl;
    [|discriminate].
  destruct (planetscale.Passwords_Create cli (api s) _) as [p err] eqn:Hans.
  destruct err as [e|]; simpl; [discriminate|].
  destruct p as [p|]; simpl; [|discriminate].
  rewrite ?Hdb. simpl. intros Hret. injection Hret as <-.
  exists cli, cr, d, p. repeat split; try assumption.
  unfold externalName, meta.GetExternalName. simpl.
  now rewrite lookup_insert_eq.
Qed.

(** C4, as the code has it. For a managed resource whose ExternalName is
    set, Observe, Update and Delete of both clients and Create of the
    Database client leave the annotation unchanged, and so does a Create
    of the Password client that does not succeed; a Create of the Password
    client that succeeds replaces the annotation by the public ID of the
    password the API created. *)
Theorem ExternalName_changes_only_in_password_Create (s : Store) :
  externalName s <> "" ->
  (forall c, externalName (snd (database.Observe c s)) = externalName s) /\
  (forall c, externalName (snd (database.Create c s)) = externalName s) /\
  (forall c, externalName (snd (database.Update c s)) = externalName s) /\
  (forall c, externalName (snd (database.Delete c s)) = externalName s) /\
  (forall c, externalName (snd (password.Observe c s)) = externalName s) /\
  (forall c, externalName (snd (password.Update c s)) = externalName s) /\
  (forall c, externalName (snd (password.Delete c s)) = externalName s) /\
  (forall c,
      (forall r, fst (password.Create c s) <> Returned (r, None)) ->
      externalName (snd (password.Create c s)) = externalName s) /\
  (forall c r,
      fst (password.Create c s) = Returned (r, None) ->
      exists cli cr d p,
        c = password.connected cli
        /\ object s = resource.PasswordCR cr
        /\ branchv1alpha1.Database
             (branchv1alpha1.ForProvider (branchv1alpha1.Spec cr)) = Some d
        /\ planetscale.Passwords_Create cli (api s)
             (password.createRequest cr d) = (Some p, None)
        /\ externalName (snd (password.Create c s)) = planetscale.PublicID p).
Proof.
  intros _. repeat split.
  - apply database_Observe_keeps_name.
  - apply database_Create_keeps_name.
  - apply database_Delete_keeps_name.
  - apply password_Observe_keeps_name.
  - apply password_Delete_keeps_name.
  - apply password_Create_failure_keeps_name.
  - intros c r Hret.
    destruct (password_Create_success c s r Hret)
      as (cli & cr & d & p & Hc & Hobj & Hdb & Hans & Hname & _).
    exists cli, cr, d, p. auto.
Qed.

Lemma ExternalName_changes_only_in_password_Create_witness :
  externalName
    (snd (password.Delete
            (password.connected
               (sample.fixed (None, None) (None, None) None
                             (None, None) (None, None) None))
            (sample.fresh (resource.PasswordCR (sample.passwordCR "pw-old")))))
  = "pw-old"
  /\
  externalName
    (snd (password.Create
            (password.connected
               (sample.fixed (None, None) (None, None) None (None, None)
                             (None, Some sample.timeout) None))
            (sample.fresh (resource.PasswordCR (sample.passwordCR "pw-old")))))
  = "pw-old"
  /\
  (exists p,
      externalName
        (snd (password.Create
                (password.connected
                   (sample.fixed (None, None) (None, None) None (None, None)
                                 (Some (sample.secret "app-pw"), None) None))
                (sample.fresh
                   (resource.PasswordCR (sample.passwordCR "pw-old")))))
      = planetscale.PublicID p).
Proof.
  assert (Hset : externalName
                   (sample.fresh
                      (resource.PasswordCR (sample.passwordCR "pw-old")))
                 <> "") by (vm_compute; discriminate).
  destruct (ExternalName_changes_only_in_password_Create
              (sample.fresh (resource.PasswordCR (sample.passwordCR "pw-old")))
              Hset)
    as (_ & _ & _ & _ & _ & _ & Hdel & Hfail & Hok).
  split; [|split].
  - apply Hdel.
  - apply Hfail. intros r. vm_compute. discriminate.
  - destruct (Hok (password.connected
                     (sample.fixed (None, None) (None, None) None (None, None)
                                   (Some (sample.secret "app-pw"), None) None))
                  _ eq_refl)
      as (_ & _ & _ & p & _ & _ & _ & _ & Hname).
    exists p. exact Hname.
Defined.

(** C4 fails as stated: the resource enters Create of the Password client
    with ExternalName "pw-old", the API creates the password "pw-7f3a",
    and the resource leaves Create with ExternalName "pw-7f3a". *)
Lemma password_Create_reassigns_ExternalName :
  externalName
    (sample.fresh (resource.PasswordCR (sample.passwordCR "pw-old")))
  = "pw-old"
  /\
  externalName
    (snd (password.Create
            (password.connected
               (sample.fixed (None, None) (None, None) None (None, None)
                             (Some (sample.secret "app-pw"), None) None))
            (sample.fresh (resource.PasswordCR (sample.passwordCR "pw-old")))))
  = "pw-7f3a".
Proof. split; vm_compute; reflexivity. Qed.

(* --------------------------------------------------------------------- *)
(** ** Connection details *)

(** The keys of the map literal in Create of the Password client. *)
Lemma password_details_keys (h u p d : list Byte.byte) :
  dom (<["host" := h]> (<["username" := u]> (<["password" := p]>
        (<["database" := d]> (∅ : gmap string (list Byte.byte))))))
  = ({[ "host"; "username"; "password"; "database" ]} : gset string).
Proof. rewrite !dom_insert_L, dom_empty_L. set_solver. Qed.

(** C8, as the code has it. Every successful Create of the Password client
    returns connection details whose keys are exactly host, username,
    password and database, bound to the bytes of the branch access host
    URL, of the password's public ID, of the plaintext password and of the
    database name; every successful Create of the Database client returns
    the empty mapping. *)
Theorem Create_connection_details (s : Store) :
  (forall c r,
      fst (password.Create c s) = Returned (r, None) ->
      exists cli cr d p,
        c = password.connected cli
        /\ object s = resource.PasswordCR cr
        /\ branchv1alpha1.Database
             (branchv1alpha1.ForProvider (branchv1alpha1.Spec cr)) = Some d
        /\ planetscale.Passwords_Create cli (api s)
             (password.createRequest cr d) = (Some p, None)
        /\ dom (managed.ConnectionDetails r)
           = ({[ "host"; "username"; "password"; "database" ]} : gset string)
        /\ managed.ConnectionDetails r !! "host"
           = Some (bytes (planetscale.AccessHostURL (planetscale.Branch p)))
        /\ managed.ConnectionDetails r !! "username"
           = Some (bytes (planetscale.PublicID p))
        /\ managed.ConnectionDetails r !! "password"
           = Some (bytes (planetscale.PlainText p))
        /\ managed.ConnectionDetails r !! "database" = Some (bytes d))
  /\
  (forall c r,
      fst (database.Create c s) = Returned (r, None) ->
      managed.ConnectionDetails r = ∅).
Proof.
  split.
  - intros c r Hret.
    destruct (password_Create_success c s r Hret)
      as (cli & cr & d & p & Hc & Hobj & Hdb & Hans & _ & Hcd).
    exists cli, cr, d, p. rewrite Hcd.
    do 4 (split; [assumption|]).
    split; [apply password_details_keys|].
    repeat split.
  - intros c r. destruct c as [[[[cli|]]|]]; run;
      destruct (object s) eqn:Hobj; simpl; branch; try discriminate;
      intros Hret; injection Hret as <-; reflexivity.
Qed.

Lemma Create_connection_details_witness :
  dom (managed.ConnectionDetails sample.created)
  = ({[ "host"; "username"; "password"; "database" ]} : gset string)
  /\
  managed.ConnectionDetails {| managed.ConnectionDetails := ∅ |} = ∅.
Proof.
  split.
  - destruct (proj1 (Create_connection_details
                       (sample.fresh
                          (resource.PasswordCR (sample.passwordCR "pw-old"))))
                (password.connected
                   (sample.fixed (None, None) (None, None) None (None, None)
                                 (Some (sample.secret "app-pw"), None) None))
                sample.created eq_refl)
      as (_ & _ & _ & _ & _ & _ & _ & _ & Hdom & _).
    exact Hdom.
  - exact (proj2 (Create_connection_details
                    (sample.fresh
                       (resource.DatabaseCR (sample.databaseCR "shop"))))
             (database.connected
                (sample.fixed (None, None) (Some sample.shopDB, None) None
                              (None, None) (None, None) None))
             {| managed.ConnectionDetails := ∅ |} eq_refl).
Defined.

(** C8 fails as stated: a Create of the Database client that succeeds
    returns connection details with no entry at all, so none for host. *)
Lemma database_Create_returns_no_details :
  fst (database.Create
         (database.connected
            (sample.fixed (None, None) (Some sample.shopDB, None) None
                          (None, None) (None, None) None))
         (sample.fresh (resource.DatabaseCR (sample.databaseCR "shop"))))
  = Returned ({| managed.ConnectionDetails := ∅ |}, None)
  /\
  managed.ConnectionDetails {| managed.ConnectionDetails := ∅ |} !! "host"
  = None.
Proof. split; reflexivity. Qed.

(* --------------------------------------------------------------------- *)
(** ** Connect *)

Section Connect.

Variable s : Store.

(** Connect talks to Kubernetes only: the trace of requests sent to
    PlanetScale and the resource are as they were. *)
Lemma password_Connect_sends_nothing c :
  api (snd (password.Connect c s)) = api s
  /\ object (snd (password.Connect c s)) = object s.
Proof.
  run. destruct (object s) eqn:Hobj; simpl; branch; auto.
Qed.

Lemma database_Connect_sends_nothing c :
  api (snd (database.Connect c s)) = api s
  /\ object (snd (database.Connect c s)) = object s.
Proof.
  run. destruct (object s) eqn:Hobj; simpl; branch; auto.
Qed.

(** The step that fails first decides the error: its cause, wrapped with
    the message of that step. *)
Lemma password_Connect_wraps c cr st err :
  object s = resource.PasswordCR cr ->
  password.fails c s cr st err ->
  fst (password.Connect c s)
  = Returned (None, Some (errors.Wrap err (password.stageMessage st))).
Proof.
  intros Hobj Hfail. run. rewrite Hobj. simpl.
  destruct Hfail as [e Ht | ref pc e Ht Href Hget
                     | ref pc data e Ht Href Hget Hcreds
                     | ref pc data svc e Ht Href Hget Hcreds Hnew];
    rewrite Ht; simpl; try reflexivity;
    rewrite Href; simpl; rewrite Hget; simpl; try reflexivity;
    rewrite Hcreds; simpl; try reflexivity;
    rewrite Hnew; reflexivity.
Qed.

Lemma database_Connect_wraps c cr st err :
  object s = resource.DatabaseCR cr ->
  database.fails c s cr st err ->
  fst (database.Connect c s)
  = Returned (None, Some (errors.Wrap err (database.stageMessage st))).
Proof.
  intros Hobj Hfail. run. rewrite Hobj. simpl.
  destruct Hfail as [e Ht | ref pc e Ht Href Hget
                     | ref pc data e Ht Href Hget Hcreds
                     | ref pc data svc e Ht Href Hget Hcreds Hnew];
    rewrite Ht; simpl; try reflexivity;
    rewrite Href; simpl; rewrite Hget; simpl; try reflexivity;
    rewrite Hcreds; simpl; try reflexivity;
    rewrite Hnew; reflexivity.
Qed.

End Connect.

(** The four messages differ before the end of the shortest of them, so
    two failures of different steps print differently whatever their
    causes print. *)
Lemma password_stage_messages_distinct st1 st2 e1 e2 :
  st1 <> st2 ->
  errors.Error (errors.Wrap e1 (password.stageMessage st1))
  <> errors.Error (errors.Wrap e2 (password.stageMessage st2)).
Proof.
  intros Hne. destruct st1, st2; try congruence; simpl; discriminate.
Qed.

Lemma database_stage_messages_distinct st1 st2 e1 e2 :
  st1 <> st2 ->
  errors.Error (errors.Wrap e1 (database.stageMessage st1))
  <> errors.Error (errors.Wrap e2 (database.stageMessage st2)).
Proof.
  intros Hne. destruct st1, st2; try congruence; simpl; discriminate.
Qed.

(** C7. Connect of either controller sends no request to the external
    system. Whichever of its four steps fails first (usage tracking,
    ProviderConfig fetch, credential resolution, service construction),
    Connect returns the cause wrapped with the message of that step
    (errTrackPCUsage, errGetPC, errGetCreds, errNewClient), and the errors
    of two different steps differ, as values and as printed. *)
Theorem Connect_failures_are_tagged (s : Store) :
  ((forall c, api (snd (password.Connect c s)) = api s)
   /\ (forall c, api (snd (database.Connect c s)) = api s))
  /\
  ((forall c cr st err,
       object s = resource.PasswordCR cr ->
       password.fails c s cr st err ->
       fst (password.Connect c s)
       = Returned (None, Some (errors.Wrap err (password.stageMessage st))))
   /\ (forall c cr st err,
          object s = resource.DatabaseCR cr ->
          database.fails c s cr st err ->
          fst (database.Connect c s)
          = Returned (None,
                      Some (errors.Wrap err (database.stageMessage st)))))
  /\
  (map password.stageMessage
     [StageTrackUsage; StageGetProviderConfig; StageGetCredentials;
      StageNewService]
   = [password.errTrackPCUsage; password.errGetPC; password.errGetCreds;
      password.errNewClient]
   /\ map database.stageMessage
        [StageTrackUsage; StageGetProviderConfig; StageGetCredentials;
         StageNewService]
      = [database.errTrackPCUsage; database.errGetPC; database.errGetCreds;
         database.errNewClient])
  /\
  (forall st1 st2 e1 e2,
      st1 <> st2 ->
      (errors.Wrap e1 (password.stageMessage st1)
       <> errors.Wrap e2 (password.stageMessage st2)
       /\ errors.Error (errors.Wrap e1 (password.stageMessage st1))
          <> errors.Error (errors.Wrap e2 (password.stageMessage st2)))
      /\
      (errors.Wrap e1 (database.stageMessage st1)
       <> errors.Wrap e2 (database.stageMessage st2)
       /\ errors.Error (errors.Wrap e1 (database.stageMessage st1))
          <> errors.Error (errors.Wrap e2 (database.stageMessage st2)))).
Proof.
  split; [|split; [|split]].
  - split; intros c.
    + apply password_Connect_sends_nothing.
    + apply database_Connect_sends_nothing.
  - split; intros c cr st err.
    + apply password_Connect_wraps.
    + apply database_Connect_wraps.
  - split; reflexivity.
  - intros st1 st2 e1 e2 Hne.
    pose proof (password_stage_messages_distinct st1 st2 e1 e2 Hne) as Hp.
    pose proof (database_stage_messages_distinct st1 st2 e1 e2 Hne) as Hd.
    repeat split; try assumption; intros Heq.
    + apply Hp. now rewrite Heq.
    + apply Hd. now rewrite Heq.
Qed.

Lemma Connect_failures_are_tagged_witness :
  fst (password.Connect
         (sample.passwordConnector None None (Some sample.forbidden) None)
         (sample.fresh (resource.PasswordCR (sample.passwordCR "pw-old"))))
  = Returned (None,
              Some (WithMessage sample.forbidden "cannot get credentials"))
  /\
  fst (database.Connect
         (sample.databaseConnector None (Some sample.forbidden) None None)
         (sample.fresh (resource.DatabaseCR (sample.databaseCR "shop"))))
  = Returned (None,
              Some (WithMessage sample.forbidden "cannot get ProviderConfig"))
  /\
  errors.Error (WithMessage sample.forbidden "cannot get credentials")
  <> errors.Error (WithMessage sample.forbidden "cannot get ProviderConfig").
Proof.
  split; [|split].
  - apply (proj1 (proj1 (proj2 (Connect_failures_are_tagged
             (sample.fresh
                (resource.PasswordCR (sample.passwordCR "pw-old"))))))
             (sample.passwordConnector None None (Some sample.forbidden) None)
             (sample.passwordCR "pw-old") StageGetCredentials sample.forbidden
             eq_refl).
    apply (password.fails_creds _ _ _ {| xpv1.Name := "default" |}
             sample.providerConfig (bytes "pscale_tkn"));
      reflexivity.
  - apply (proj2 (proj1 (proj2 (Connect_failures_are_tagged
             (sample.fresh
                (resource.DatabaseCR (sample.databaseCR "shop"))))))
             (sample.databaseConnector None (Some sample.forbidden) None None)
             (sample.databaseCR "shop") StageGetProviderConfig
             sample.forbidden eq_refl).
    apply (database.fails_get _ _ _ {| xpv1.Name := "default" |}
             sample.providerConfig);
      reflexivity.
  - apply (proj2 (proj1 (proj2 (proj2 (proj2 (Connect_failures_are_tagged
             (sample.fresh
                (resource.PasswordCR (sample.passwordCR "pw-old"))))))
             StageGetCredentials StageGetProviderConfig
             sample.forbidden sample.forbidden ltac:(discriminate)))).
Defined.

(* --------------------------------------------------------------------- *)
(** ** The kind check *)

(** C10. For a managed resource that is not of a controller's own kind,
    Connect, Observe, Create and Delete of that controller return the
    type-mismatch error (errNotPassword, errNotDatabase), and Update
    returns success: Update does not look at its argument. *)
Theorem Update_skips_the_kind_check (s : Store) :
  (password.asPassword (object s) = None ->
   (forall c, fst (password.Update c s)
              = Returned ({| managed.UpdateConnectionDetails := ∅ |}, None))
   /\ (forall c, fst (password.Connect c s)
                 = Returned (None, Some (errors.New password.errNotPassword)))
   /\ (forall c, fst (password.Observe c s)
                 = Returned (managed.Observation false false,
                             Some (errors.New password.errNotPassword)))
   /\ (forall c, fst (password.Create c s)
                 = Returned ({| managed.ConnectionDetails := ∅ |},
                             Some (errors.New password.errNotPassword)))
   /\ (forall c, fst (password.Delete c s)
                 = Returned (Some (errors.New password.errNotPassword))))
  /\
  (database.asDatabase (object s) = None ->
   (forall c, fst (database.Update c s)
              = Returned ({| managed.UpdateConnectionDetails := ∅ |}, None))
   /\ (forall c, fst (database.Connect c s)
                 = Returned (None, Some (errors.New database.errNotDatabase)))
   /\ (forall c, fst (database.Observe c s)
                 = Returned (managed.Observation false false,
                             Some (errors.New database.errNotDatabase)))
   /\ (forall c, fst (database.Create c s)
                 = Returned ({| managed.ConnectionDetails := ∅ |},
                             Some (errors.New database.errNotDatabase)))
   /\ (forall c, fst (database.Delete c s)
                 = Returned (Some (errors.New database.errNotDatabase)))).
Proof.
  split; intros Hkind; repeat split; intros c; run; rewrite Hkind;
    reflexivity.
Qed.

Lemma Update_skips_the_kind_check_witness :
  fst (password.Update (password.connected
                          (sample.fixed (None, None) (None, None) None
                                        (None, None) (None, None) None))
         (sample.fresh (resource.DatabaseCR (sample.databaseCR "shop"))))
  = Returned ({| managed.UpdateConnectionDetails := ∅ |}, None)
  /\
  fst (database.Delete (database.connected
                          (sample.fixed (None, None) (None, None) None
                                        (None, None) (None, None) None))
         (sample.fresh (resource.PasswordCR (sample.passwordCR "pw-old"))))
  = Returned (Some (Fundamental
                      "managed resource is not a Database custom resource")).
Proof.
  split.
  - apply (proj1 (Update_skips_the_kind_check
                    (sample.fresh
                       (resource.DatabaseCR (sample.databaseCR "shop"))))
             eq_refl).
  - apply (proj2 (Update_skips_the_kind_check
                    (sample.fresh
                       (resource.PasswordCR (sample.passwordCR "pw-old"))))
             eq_refl).
Defined.


(* ===================================================================== *)
(** * Further properties of the two clients *)

(* --------------------------------------------------------------------- *)
(** ** What an operation sends *)


(* --------------------------------------------------------------------- *)
(** ** What an operation leaves alone *)

(** X2. Connect, Update and Delete of both controllers and Observe of the
    Password client never write to the managed resource: whatever the
    collaborators answer, and also when the call panics, the resource
    behind [mg] is afterwards what it was before. *)
Theorem resource_is_read_only (s : Store) :
  (forall c, object (snd (password.Connect c s)) = object s)
  /\ (forall c, object (snd (password.Observe c s)) = object s)
  /\ (forall c, object (snd (password.Update c s)) = object s)
  /\ (forall c, object (snd (password.Delete c s)) = object s)
  /\ (forall c, object (snd (database.Connect c s)) = object s)
  /\ (forall c, object (snd (database.Update c s)) = object s)
  /\ (forall c, object (snd (database.Delete c s)) = object s).
Proof.
  repeat apply conj; intros c.
  - apply password_Connect_sends_nothing.
  - destruct c as [[[[cli|]]|]]; run;
      destruct (object s) eqn:Hobj; simpl; branch; auto.
  - reflexivity.
  - destruct c as [[[[cli|]]|]]; run;
      destruct (object s) eqn:Hobj; simpl; branch; auto.
  - apply database_Connect_sends_nothing.
  - reflexivity.
  - destruct c as [[[[cli|]]|]]; run;
      destruct (object s) eqn:Hobj; simpl; branch; auto.
Qed.

(** X3. A resource that is not of the controller's own kind is turned
    away before anything happens: Connect, Observe, Create, Update and
    Delete all leave the whole store as it was, so no request has gone to
    Kubernetes or to PlanetScale and the resource is untouched. *)
Theorem wrong_kind_has_no_effect (s : Store) :
  (password.asPassword (object s) = None ->
   (forall c, snd (password.Connect c s) = s)
   /\ (forall c, snd (password.Observe c s) = s)
   /\ (forall c, snd (password.Create c s) = s)
   /\ (forall c, snd (password.Update c s) = s)
   /\ (forall c, snd (password.Delete c s) = s))
  /\
  (database.asDatabase (object s) = None ->
   (forall c, snd (database.Connect c s) = s)
   /\ (forall c, snd (database.Observe c s) = s)
   /\ (forall c, snd (database.Create c s) = s)
   /\ (forall c, snd (database.Update c s) = s)
   /\ (forall c, snd (database.Delete c s) = s)).
Proof.
  split; intros Hkind; repeat apply conj; intros c; run;
    rewrite ?Hkind; reflexivity.
Qed.

Lemma wrong_kind_has_no_effect_witness :
  snd (password.Connect
         (sample.passwordConnector None None None None)
         (sample.fresh sample.bucket))
  = sample.fresh sample.bucket
  /\
  snd (database.Create (database.connected sample.silent)
         (sample.fresh (resource.PasswordCR (sample.passwordCR "pw-old"))))
  = sample.fresh (resource.PasswordCR (sample.passwordCR "pw-old")).
Proof.
  split.
  - apply (proj1 (wrong_kind_has_no_effect (sample.fresh sample.bucket))
             eq_refl).
  - apply (proj2 (wrong_kind_has_no_effect
                    (sample.fresh
                       (resource.PasswordCR (sample.passwordCR "pw-old"))))
             eq_refl).
Defined.

(* --------------------------------------------------------------------- *)
(** ** Nil pointers *)

(** X4. An external client whose service pointer or API client pointer is
    nil panics in Observe, Create and Delete as soon as it is given a
    resource of its own kind, and so does the Password client given a
    Password whose database pointer is nil. In each case the panic comes
    before the request: the store is as it was. *)
Theorem nil_pointer_panics_before_the_request (s : Store) :
  (forall c cr,
      object s = resource.PasswordCR cr ->
      (forall cli, c <> password.connected cli)
      \/ branchv1alpha1.Database
           (branchv1alpha1.ForProvider (branchv1alpha1.Spec cr)) = None ->
      password.Observe c s = (Panicked NilDereference, s)
      /\ password.Create c s = (Panicked NilDereference, s)
      /\ password.Delete c s = (Panicked NilDereference, s))
  /\
  (forall c cr,
      object s = resource.DatabaseCR cr ->
      (forall cli, c <> database.connected cli) ->
      database.Observe c s = (Panicked NilDereference, s)
      /\ database.Create c s = (Panicked NilDereference, s)
      /\ database.Delete c s = (Panicked NilDereference, s)).
Proof.
  split.
  - intros c cr Hobj Hnil. destruct c as [[[[cli|]]|]]; run; rewrite Hobj; simpl.
    + destruct Hnil as [Hnil | Hdb].
      * now destruct (Hnil cli).
      * rewrite Hdb. auto.
    + auto.
    + auto.
  - intros c cr Hobj Hnil. destruct c as [[[[cli|]]|]]; run; rewrite Hobj; simpl.
    + now destruct (Hnil cli).
    + auto.
    + auto.
Qed.

Lemma nil_pointer_panics_before_the_request_witness :
  password.Observe (password.connected sample.silent)
    (sample.fresh (resource.PasswordCR sample.passwordNoDatabase))
  = (Panicked NilDereference,
     sample.fresh (resource.PasswordCR sample.passwordNoDatabase))
  /\
  password.Delete {| password.service := None |}
    (sample.fresh (resource.PasswordCR (sample.passwordCR "pw-old")))
  = (Panicked NilDereference,
     sample.fresh (resource.PasswordCR (sample.passwordCR "pw-old")))
  /\
  database.Create
    {| database.service := Some {| database.pCLI := None |} |}
    (sample.fresh (resource.DatabaseCR (sample.databaseCR "shop")))
  = (Panicked NilDereference,
     sample.fresh (resource.DatabaseCR (sample.databaseCR "shop"))).
Proof.
  split; [|split].
  - apply (proj1 (nil_pointer_panics_before_the_request
                    (sample.fresh
                       (resource.PasswordCR sample.passwordNoDatabase)))
             (password.connected sample.silent) sample.passwordNoDatabase
             eq_refl).
    right. reflexivity.
  - apply (proj1 (nil_pointer_panics_before_the_request
                    (sample.fresh
                       (resource.PasswordCR (sample.passwordCR "pw-old"))))
             {| password.service := None |} (sample.passwordCR "pw-old")
             eq_refl).
    left. intros cli H. discriminate H.
  - apply (proj2 (nil_pointer_panics_before_the_request
                    (sample.fresh
                       (resource.DatabaseCR (sample.databaseCR "shop"))))
             {| database.service := Some {| database.pCLI := None |} |}
             (sample.databaseCR "shop") eq_refl).
    intros cli H. discriminate H.
Defined.

(* --------------------------------------------------------------------- *)
(** ** Connect, step by step *)

(** The store after some more requests to Kubernetes. *)
Lemma kubelog_two (l : list kube.Call) a b : (l ++ [a]) ++ [b] = l ++ [a; b].
Proof. now rewrite <- app_assoc. Qed.

Lemma kubelog_three (l : list kube.Call) a b c :
  ((l ++ [a]) ++ [b]) ++ [c] = l ++ [a; b; c].
Proof. now rewrite <- !app_assoc. Qed.

Section ConnectRuns.

Variable s : Store.

(** A run of Connect in which the first three steps succeed. *)
Lemma password_Connect_run c cr ref pc data :
  object s = resource.PasswordCR cr ->
  kube.Track (password.usage c) (kubelog s) (resource.PasswordCR cr) = None ->
  xpv1.ProviderConfigReference
    (branchv1alpha1.ResourceSpec (branchv1alpha1.Spec cr)) = Some ref ->
  kube.Get (password.kube c)
    (kubelog s ++ [kube.TrackUsage (resource.PasswordCR cr)])
    (xpv1.Name ref) = (pc, None) ->
  kube.CommonCredentialExtractor (password.kube c)
    ((kubelog s ++ [kube.TrackUsage (resource.PasswordCR cr)])
       ++ [kube.GetProviderConfig (xpv1.Name ref)])
    (apisv1alpha1.Source (apisv1alpha1.Credentials (apisv1alpha1.Spec pc)))
    (apisv1alpha1.CommonCredentialSelectors
       (apisv1alpha1.Credentials (apisv1alpha1.Spec pc)))
  = (data, None) ->
  password.Connect c s
  = (Returned
       (match password.newServiceFn c data with
        | (svc, Some err) =>
          (None, Some (errors.Wrap err password.errNewClient))
        | (svc, None) => (Some {| password.service := svc |}, None)
        end),
     {| object := object s; api := api s;
        kubelog :=
          kubelog s
          ++ [kube.TrackUsage (resource.PasswordCR cr);
              kube.GetProviderConfig (xpv1.Name ref);
              kube.ExtractCredentials
                (apisv1alpha1.Source
                   (apisv1alpha1.Credentials (apisv1alpha1.Spec pc)))
                (apisv1alpha1.CommonCredentialSelectors
                   (apisv1alpha1.Credentials (apisv1alpha1.Spec pc)))] |}).
Proof.
  intros Hobj Ht Href Hget Hcreds. run. rewrite Hobj. simpl.
  rewrite Ht. simpl. rewrite Href. simpl. rewrite Hget. simpl.
  rewrite Hcreds. simpl. rewrite kubelog_three.
  destruct (password.newServiceFn c data) as [svc [err|]];
    rewrite ?Hobj; reflexivity.
Qed.

Lemma database_Connect_run c cr ref pc data :
  object s = resource.DatabaseCR cr ->
  kube.Track (database.usage c) (kubelog s) (resource.DatabaseCR cr) = None ->
  xpv1.ProviderConfigReference
    (databasev1alpha1.ResourceSpec (databasev1alpha1.Spec cr)) = Some ref ->
  kube.Get (database.kube c)
    (kubelog s ++ [kube.TrackUsage (resource.DatabaseCR cr)])
    (xpv1.Name ref) = (pc, None) ->
  kube.CommonCredentialExtractor (database.kube c)
    ((kubelog s ++ [kube.TrackUsage (resource.DatabaseCR cr)])
       ++ [kube.GetProviderConfig (xpv1.Name ref)])
    (apisv1alpha1.Source (apisv1alpha1.Credentials (apisv1alpha1.Spec pc)))
    (apisv1alpha1.CommonCredentialSelectors
       (apisv1alpha1.Credentials (apisv1alpha1.Spec pc)))
  = (data, None) ->
  database.Connect c s
  = (Returned
       (match database.newServiceFn c data with
        | (svc, Some err) =>
          (None, Some (errors.Wrap err database.errNewClient))
        | (svc, None) => (Some {| database.service := svc |}, None)
        end),
     {| object := object s; api := api s;
        kubelog :=
          kubelog s
          ++ [kube.TrackUsage (resource.DatabaseCR cr);
              kube.GetProviderConfig (xpv1.Name ref);
              kube.ExtractCredentials
                (apisv1alpha1.Source
                   (apisv1alpha1.Credentials (apisv1alpha1.Spec pc)))
                (apisv1alpha1.CommonCredentialSelectors
                   (apisv1alpha1.Credentials (apisv1alpha1.Spec pc)))] |}).
Proof.
  intros Hobj Ht Href Hget Hcreds. run. rewrite Hobj. simpl.
  rewrite Ht. simpl. rewrite Href. simpl. rewrite Hget. simpl.
  rewrite Hcreds. simpl. rewrite kubelog_three.
  destruct (database.newServiceFn c data) as [svc [err|]];
    rewrite ?Hobj; reflexivity.
Qed.

End ConnectRuns.

(** X5. When usage tracking, the ProviderConfig fetch, credential
    resolution and service construction all succeed, Connect of either
    controller returns an external client around exactly the service that
    [newServiceFn] built from the resolved credentials, with a nil error,
    and it has sent Kubernetes three requests in this order: track usage,
    get the ProviderConfig named by the resource's reference, read the
    credentials selected by that ProviderConfig. *)
Theorem Connect_succeeds (s : Store) :
  (forall c cr ref pc data svc,
      object s = resource.PasswordCR cr ->
      kube.Track (password.usage c) (kubelog s) (resource.PasswordCR cr)
      = None ->
      xpv1.ProviderConfigReference
        (branchv1alpha1.ResourceSpec (branchv1alpha1.Spec cr)) = Some ref ->
      kube.Get (password.kube c)
        (kubelog s ++ [kube.TrackUsage (resource.PasswordCR cr)])
        (xpv1.Name ref) = (pc, None) ->
      kube.CommonCredentialExtractor (password.kube c)
        ((kubelog s ++ [kube.TrackUsage (resource.PasswordCR cr)])
           ++ [kube.GetProviderConfig (xpv1.Name ref)])
        (apisv1alpha1.Source (apisv1alpha1.Credentials (apisv1alpha1.Spec pc)))
        (apisv1alpha1.CommonCredentialSelectors
           (apisv1alpha1.Credentials (apisv1alpha1.Spec pc)))
      = (data, None) ->
      password.newServiceFn c data = (svc, None) ->
      fst (password.Connect c s)
      = Returned (Some {| password.service := svc |}, None)
      /\ kubelog (snd (password.Connect c s))
         = kubelog s
           ++ [kube.TrackUsage (resource.PasswordCR cr);
               kube.GetProviderConfig (xpv1.Name ref);
               kube.ExtractCredentials
                 (apisv1alpha1.Source
                    (apisv1alpha1.Credentials (apisv1alpha1.Spec pc)))
                 (apisv1alpha1.CommonCredentialSelectors
                    (apisv1alpha1.Credentials (apisv1alpha1.Spec pc)))])
  /\
  (forall c cr ref pc data svc,
      object s = resource.DatabaseCR cr ->
      kube.Track (database.usage c) (kubelog s) (resource.DatabaseCR cr)
      = None ->
      xpv1.ProviderConfigReference
        (databasev1alpha1.ResourceSpec (databasev1alpha1.Spec cr))
      = Some ref ->
      kube.Get (database.kube c)
        (kubelog s ++ [kube.TrackUsage (resource.DatabaseCR cr)])
        (xpv1.Name ref) = (pc, None) ->
      kube.CommonCredentialExtractor (database.kube c)
        ((kubelog s ++ [kube.TrackUsage (resource.DatabaseCR cr)])
           ++ [kube.GetProviderConfig (xpv1.Name ref)])
        (apisv1alpha1.Source (apisv1alpha1.Credentials (apisv1alpha1.Spec pc)))
        (apisv1alpha1.CommonCredentialSelectors
           (apisv1alpha1.Credentials (apisv1alpha1.Spec pc)))
      = (data, None) ->
      database.newServiceFn c data = (svc, None) ->
      fst (database.Connect c s)
      = Returned (Some {| database.service := svc |}, None)
      /\ kubelog (snd (database.Connect c s))
         = kubelog s
           ++ [kube.TrackUsage (resource.DatabaseCR cr);
               kube.GetProviderConfig (xpv1.Name ref);
               kube.ExtractCredentials
                 (apisv1alpha1.Source
                    (apisv1alpha1.Credentials (apisv1alpha1.Spec pc)))
                 (apisv1alpha1.CommonCredentialSelectors
                    (apisv1alpha1.Credentials (apisv1alpha1.Spec pc)))]).
Proof.
  split; intros c cr ref pc data svc Hobj Ht Href Hget Hcreds Hnew.
  - rewrite (password_Connect_run s c cr ref pc data Hobj Ht Href Hget Hcreds).
    rewrite Hnew. split; reflexivity.
  - rewrite (database_Connect_run s c cr ref pc data Hobj Ht Href Hget Hcreds).
    rewrite Hnew. split; reflexivity.
Qed.

Lemma Connect_succeeds_witness :
  fst (password.Connect (sample.passwordConnector None None None None)
         (sample.fresh (resource.PasswordCR (sample.passwordCR "pw-old"))))
  = Returned (Some {| password.service :=
                        Some {| password.pCLI := None |} |}, None)
  /\
  kubelog
    (snd (database.Connect (sample.databaseConnector None None None None)
            (sample.fresh (resource.DatabaseCR (sample.databaseCR "shop")))))
  = [kube.TrackUsage (resource.DatabaseCR (sample.databaseCR "shop"));
     kube.GetProviderConfig "default";
     kube.ExtractCredentials "Secret" "planetscale-creds"].
Proof.
  split.
  - apply (proj1 (Connect_succeeds
                    (sample.fresh
                       (resource.PasswordCR (sample.passwordCR "pw-old"))))
             (sample.passwordConnector None None None None)
             (sample.passwordCR "pw-old") {| xpv1.Name := "default" |}
             sample.providerConfig (bytes "pscale_tkn")
             (Some {| password.pCLI := None |})
             eq_refl eq_refl eq_refl eq_refl eq_refl eq_refl).
  - apply (proj2 (Connect_succeeds
                    (sample.fresh
                       (resource.DatabaseCR (sample.databaseCR "shop"))))
             (sample.databaseConnector None None None None)
             (sample.databaseCR "shop") {| xpv1.Name := "default" |}
             sample.providerConfig (bytes "pscale_tkn")
             (Some {| database.pCLI := None |})
             eq_refl eq_refl eq_refl eq_refl eq_refl eq_refl).
Defined.

(** X6. Connect stops at the step that fails: after a failure of usage
    tracking Kubernetes has seen the tracking request only, after a failure
    of the ProviderConfig fetch the tracking and the fetch (of the
    ProviderConfig the resource refers to), and only after both succeeded
    is the credential source read. *)
Theorem Connect_stops_at_the_failing_step (s : Store) :
  (forall c cr st err,
      object s = resource.PasswordCR cr ->
      password.fails c s cr st err ->
      exists name source selectors,
        (st <> StageTrackUsage ->
         xpv1.ProviderConfigReference
           (branchv1alpha1.ResourceSpec (branchv1alpha1.Spec cr))
         = Some {| xpv1.Name := name |})
        /\ kubelog (snd (password.Connect c s))
           = kubelog s
             ++ firstn (match st with
                        | StageTrackUsage => 1
                        | StageGetProviderConfig => 2
                        | _ => 3
                        end)
                  [kube.TrackUsage (resource.PasswordCR cr);
                   kube.GetProviderConfig name;
                   kube.ExtractCredentials source selectors])
  /\
  (forall c cr st err,
      object s = resource.DatabaseCR cr ->
      database.fails c s cr st err ->
      exists name source selectors,
        (st <> StageTrackUsage ->
         xpv1.ProviderConfigReference
           (databasev1alpha1.ResourceSpec (databasev1alpha1.Spec cr))
         = Some {| xpv1.Name := name |})
        /\ kubelog (snd (database.Connect c s))
           = kubelog s
             ++ firstn (match st with
                        | StageTrackUsage => 1
                        | StageGetProviderConfig => 2
                        | _ => 3
                        end)
                  [kube.TrackUsage (resource.DatabaseCR cr);
                   kube.GetProviderConfig name;
                   kube.ExtractCredentials source selectors]).
Proof.
  split; intros c cr st err Hobj Hfail.
  - destruct Hfail as [e Ht | ref pc e Ht Href Hget
                       | ref pc data e Ht Href Hget Hcreds
                       | ref pc data svc e Ht Href Hget Hcreds Hnew].
    + exists "", "", "". split; [congruence|].
      run. rewrite Hobj. simpl. rewrite Ht. reflexivity.
    + exists (xpv1.Name ref), "", "". split; [intros _; rewrite Href; now destruct ref|].
      run. rewrite Hobj. simpl.
      rewrite Ht. simpl. rewrite Href. simpl. rewrite Hget. simpl.
      apply kubelog_two.
    + eexists (xpv1.Name ref), _, _. split; [intros _; rewrite Href; now destruct ref|].
      run. rewrite Hobj. simpl.
      rewrite Ht. simpl. rewrite Href. simpl. rewrite Hget. simpl.
      rewrite Hcreds. simpl. apply kubelog_three.
    + eexists (xpv1.Name ref), _, _. split; [intros _; rewrite Href; now destruct ref|].
      rewrite (password_Connect_run s c cr _ pc data Hobj Ht Href Hget
                 Hcreds).
      reflexivity.
  - destruct Hfail as [e Ht | ref pc e Ht Href Hget
                       | ref pc data e Ht Href Hget Hcreds
                       | ref pc data svc e Ht Href Hget Hcreds Hnew].
    + exists "", "", "". split; [congruence|].
      run. rewrite Hobj. simpl. rewrite Ht. reflexivity.
    + exists (xpv1.Name ref), "", "". split; [intros _; rewrite Href; now destruct ref|].
      run. rewrite Hobj. simpl.
      rewrite Ht. simpl. rewrite Href. simpl. rewrite Hget. simpl.
      apply kubelog_two.
    + eexists (xpv1.Name ref), _, _. split; [intros _; rewrite Href; now destruct ref|].
      run. rewrite Hobj. simpl.
      rewrite Ht. simpl. rewrite Href. simpl. rewrite Hget. simpl.
      rewrite Hcreds. simpl. apply kubelog_three.
    + eexists (xpv1.Name ref), _, _. split; [intros _; rewrite Href; now destruct ref|].
      rewrite (database_Connect_run s c cr _ pc data Hobj Ht Href Hget
                 Hcreds).
      reflexivity.
Qed.

Lemma Connect_stops_at_the_failing_step_witness :
  (exists name source selectors,
      (StageGetProviderConfig <> StageTrackUsage ->
       xpv1.ProviderConfigReference
         (branchv1alpha1.ResourceSpec
            (branchv1alpha1.Spec (sample.passwordCR "pw-old")))
       = Some {| xpv1.Name := name |})
      /\ kubelog
           (snd (password.Connect
                   (sample.passwordConnector None (Some sample.forbidden)
                      None None)
                   (sample.fresh
                      (resource.PasswordCR (sample.passwordCR "pw-old")))))
         = kubelog (sample.fresh
                      (resource.PasswordCR (sample.passwordCR "pw-old")))
           ++ firstn 2
                [kube.TrackUsage
                   (resource.PasswordCR (sample.passwordCR "pw-old"));
                 kube.GetProviderConfig name;
                 kube.ExtractCredentials source selectors])
  /\
  (exists name source selectors,
      (StageTrackUsage <> StageTrackUsage ->
       xpv1.ProviderConfigReference
         (databasev1alpha1.ResourceSpec
            (databasev1alpha1.Spec (sample.databaseCR "shop")))
       = Some {| xpv1.Name := name |})
      /\ kubelog
           (snd (database.Connect
                   (sample.databaseConnector (Some sample.forbidden) None
                      None None)
                   (sample.fresh
                      (resource.DatabaseCR (sample.databaseCR "shop")))))
         = kubelog (sample.fresh
                      (resource.DatabaseCR (sample.databaseCR "shop")))
           ++ firstn 1
                [kube.TrackUsage
                   (resource.DatabaseCR (sample.databaseCR "shop"));
                 kube.GetProviderConfig name;
                 kube.ExtractCredentials source selectors]).
Proof.
  split.
  - apply (proj1 (Connect_stops_at_the_failing_step
                    (sample.fresh
                       (resource.PasswordCR (sample.passwordCR "pw-old"))))
             (sample.passwordConnector None (Some sample.forbidden) None None)
             (sample.passwordCR "pw-old") StageGetProviderConfig
             sample.forbidden eq_refl).
    apply (password.fails_get _ _ _ {| xpv1.Name := "default" |}
             sample.providerConfig); reflexivity.
  - apply (proj2 (Connect_stops_at_the_failing_step
                    (sample.fresh
                       (resource.DatabaseCR (sample.databaseCR "shop"))))
             (sample.databaseConnector (Some sample.forbidden) None None None)
             (sample.databaseCR "shop") StageTrackUsage
             sample.forbidden eq_refl).
    apply database.fails_track; reflexivity.
Defined.

(** X7. A resource of the controller's kind that carries no
    ProviderConfig reference makes Connect panic on the nil reference, and
    this happens after usage tracking: when tracking fails its error is
    still returned, when it succeeds the tracking request has been sent
    and nothing else. *)
Theorem Connect_without_reference (s : Store) :
  (forall c cr,
      object s = resource.PasswordCR cr ->
      xpv1.ProviderConfigReference
        (branchv1alpha1.ResourceSpec (branchv1alpha1.Spec cr)) = None ->
      match kube.Track (password.usage c) (kubelog s)
              (resource.PasswordCR cr) with
      | Some err =>
        fst (password.Connect c s)
        = Returned (None, Some (errors.Wrap err password.errTrackPCUsage))
      | None =>
        password.Connect c s
        = (Panicked NilDereference,
           {| object := object s; api := api s;
              kubelog :=
                kubelog s ++ [kube.TrackUsage (resource.PasswordCR cr)] |})
      end)
  /\
  (forall c cr,
      object s = resource.DatabaseCR cr ->
      xpv1.ProviderConfigReference
        (databasev1alpha1.ResourceSpec (databasev1alpha1.Spec cr)) = None ->
      match kube.Track (database.usage c) (kubelog s)
              (resource.DatabaseCR cr) with
      | Some err =>
        fst (database.Connect c s)
        = Returned (None, Some (errors.Wrap err database.errTrackPCUsage))
      | None =>
        database.Connect c s
        = (Panicked NilDereference,
           {| object := object s; api := api s;
              kubelog :=
                kubelog s ++ [kube.TrackUsage (resource.DatabaseCR cr)] |})
      end).
Proof.
  split; intros c cr Hobj Href; run; rewrite Hobj; simpl;
    destruct (kube.Track _ _ _) as [err|]; simpl; try reflexivity;
    rewrite Href; simpl; rewrite ?Hobj; reflexivity.
Qed.

Lemma Connect_without_reference_witness :
  database.Connect (sample.databaseConnector None None None None)
    (sample.fresh (resource.DatabaseCR sample.databaseNoReference))
  = (Panicked NilDereference,
     {| object := resource.DatabaseCR sample.databaseNoReference;
        api := [];
        kubelog :=
          [kube.TrackUsage (resource.DatabaseCR sample.databaseNoReference)]
     |}).
Proof.
  exact (proj2 (Connect_without_reference
                  (sample.fresh
                     (resource.DatabaseCR sample.databaseNoReference)))
           (sample.databaseConnector None None None None)
           sample.databaseNoReference eq_refl eq_refl).
Defined.

(* --------------------------------------------------------------------- *)
(** ** The default service constructor *)

(** X8. With the default constructor [newPlanetScaleService] as
    [newServiceFn], the token given to the API library is the text of the
    resolved credential bytes. If the library accepts it and hands out a
    client, Connect returns an external client connected to that client;
    if the library fails, Connect returns its error wrapped with
    errNewClient, although a service was allocated. *)
Theorem Connect_with_default_constructor (s : Store)
    (NewClient : string -> option planetscale.Client * option error)
    (token : string) :
  (forall c cr ref pc,
      password.newServiceFn c = password.newPlanetScaleService NewClient ->
      object s = resource.PasswordCR cr ->
      kube.Track (password.usage c) (kubelog s) (resource.PasswordCR cr)
      = None ->
      xpv1.ProviderConfigReference
        (branchv1alpha1.ResourceSpec (branchv1alpha1.Spec cr)) = Some ref ->
      kube.Get (password.kube c)
        (kubelog s ++ [kube.TrackUsage (resource.PasswordCR cr)])
        (xpv1.Name ref) = (pc, None) ->
      kube.CommonCredentialExtractor (password.kube c)
        ((kubelog s ++ [kube.TrackUsage (resource.PasswordCR cr)])
           ++ [kube.GetProviderConfig (xpv1.Name ref)])
        (apisv1alpha1.Source (apisv1alpha1.Credentials (apisv1alpha1.Spec pc)))
        (apisv1alpha1.CommonCredentialSelectors
           (apisv1alpha1.Credentials (apisv1alpha1.Spec pc)))
      = (bytes token, None) ->
      fst (password.Connect c s)
      = Returned
          (match NewClient token with
           | (Some cli, None) => (Some (password.connected cli), None)
           | (None, None) =>
             (Some {| password.service :=
                        Some {| password.pCLI := None |} |}, None)
           | (_, Some err) =>
             (None, Some (errors.Wrap err password.errNewClient))
           end))
  /\
  (forall c cr ref pc,
      database.newServiceFn c = database.newPlanetScaleService NewClient ->
      object s = resource.DatabaseCR cr ->
      kube.Track (database.usage c) (kubelog s) (resource.DatabaseCR cr)
      = None ->
      xpv1.ProviderConfigReference
        (databasev1alpha1.ResourceSpec (databasev1alpha1.Spec cr))
      = Some ref ->
      kube.Get (database.kube c)
        (kubelog s ++ [kube.TrackUsage (resource.DatabaseCR cr)])
        (xpv1.Name ref) = (pc, None) ->
      kube.CommonCredentialExtractor (database.kube c)
        ((kubelog s ++ [kube.TrackUsage (resource.DatabaseCR cr)])
           ++ [kube.GetProviderConfig (xpv1.Name ref)])
        (apisv1alpha1.Source (apisv1alpha1.Credentials (apisv1alpha1.Spec pc)))
        (apisv1alpha1.CommonCredentialSelectors
           (apisv1alpha1.Credentials (apisv1alpha1.Spec pc)))
      = (bytes token, None) ->
      fst (database.Connect c s)
      = Returned
          (match NewClient token with
           | (Some cli, None) => (Some (database.connected cli), None)
           | (None, None) =>
             (Some {| database.service :=
                        Some {| database.pCLI := None |} |}, None)
           | (_, Some err) =>
             (None, Some (errors.Wrap err database.errNewClient))
           end)).
Proof.
  split; intros c cr ref pc Hfn Hobj Ht Href Hget Hcreds.
  - rewrite (password_Connect_run s c cr ref pc _ Hobj Ht Href Hget Hcreds).
    rewrite Hfn. unfold password.newPlanetScaleService, bytes.
    rewrite string_of_list_byte_of_string.
    destruct (NewClient token) as [[cli|] [err|]]; reflexivity.
  - rewrite (database_Connect_run s c cr ref pc _ Hobj Ht Href Hget Hcreds).
    rewrite Hfn. unfold database.newPlanetScaleService, bytes.
    rewrite string_of_list_byte_of_string.
    destruct (NewClient token) as [[cli|] [err|]]; reflexivity.
Qed.

Lemma Connect_with_default_constructor_witness :
  fst (password.Connect (sample.wiredPassword sample.silent None)
         (sample.fresh (resource.PasswordCR (sample.passwordCR "pw-old"))))
  = Returned (Some (password.connected sample.silent), None)
  /\
  fst (database.Connect (sample.wiredDatabase sample.silent None)
         (sample.fresh (resource.DatabaseCR (sample.databaseCR "shop"))))
  = Returned (Some (database.connected sample.silent), None).
Proof.
  split.
  - exact (proj1 (Connect_with_default_constructor
                    (sample.fresh
                       (resource.PasswordCR (sample.passwordCR "pw-old")))
                    (sample.newClient sample.silent) "pscale_tkn")
             (sample.wiredPassword sample.silent None)
             (sample.passwordCR "pw-old") {| xpv1.Name := "default" |}
             sample.providerConfig eq_refl eq_refl eq_refl eq_refl eq_refl
             eq_refl).
  - exact (proj2 (Connect_with_default_constructor
                    (sample.fresh
                       (resource.DatabaseCR (sample.databaseCR "shop")))
                    (sample.newClient sample.silent) "pscale_tkn")
             (sample.wiredDatabase sample.silent None)
             (sample.databaseCR "shop") {| xpv1.Name := "default" |}
             sample.providerConfig eq_refl eq_refl eq_refl eq_refl eq_refl
             eq_refl).
Defined.

(* --------------------------------------------------------------------- *)
(** ** Observe, read backwards *)

(** X9. Observe reports a resource of its own kind as absent only when
    the API said so: if the observation returned has ResourceExists =
    false, then the client was connected, the query was answered with a
    planetscale error of code ErrNotFound, and the error returned is nil.
    No other error code, and no error that merely wraps a not-found, is
    taken for absence. *)
Theorem Observe_absent_only_on_not_found (s : Store) :
  (forall c cr r e,
      object s = resource.PasswordCR cr ->
      fst (password.Observe c s) = Returned (r, e) ->
      managed.ResourceExists r = false ->
      e = None
      /\ exists cli d p msg,
          c = password.connected cli
          /\ branchv1alpha1.Database
               (branchv1alpha1.ForProvider (branchv1alpha1.Spec cr)) = Some d
          /\ planetscale.Passwords_Get cli (api s) (password.getRequest cr d)
             = (p, Some (PlanetScaleError ErrNotFound msg)))
  /\
  (forall c cr r e,
      object s = resource.DatabaseCR cr ->
      fst (database.Observe c s) = Returned (r, e) ->
      managed.ResourceExists r = false ->
      e = None
      /\ exists cli db msg,
          c = database.connected cli
          /\ planetscale.Databases_Get cli (api s) (database.getRequest cr)
             = (db, Some (PlanetScaleError ErrNotFound msg))).
Proof.
  split.
  - intros c cr r e Hobj. destruct c as [[[[cli|]]|]]; run; rewrite Hobj;
      simpl; try discriminate.
    destruct (branchv1alpha1.Database _) as [d|] eqn:Hdb; simpl;
      [|discriminate].
    destruct (planetscale.Passwords_Get cli (api s) _) as [p err] eqn:Hget.
    destruct (isNotFound err) eqn:Hnf; simpl.
    + intros Hret _. injection Hret as <- <-. split; [reflexivity|].
      destruct err as [[code msg| |]|]; try discriminate.
      destruct code; try discriminate.
      exists cli, d, p, msg. auto.
    + destruct p as [p|]; simpl; [|discriminate].
      intros Hret Hex. injection Hret as <- <-. discriminate Hex.
  - intros c cr r e Hobj. destruct c as [[[[cli|]]|]]; run; rewrite Hobj;
      simpl; try discriminate.
    destruct (planetscale.Databases_Get cli (api s) _) as [db err] eqn:Hget.
    destruct (isNotFound err) eqn:Hnf; simpl.
    + intros Hret _. injection Hret as <- <-. split; [reflexivity|].
      destruct err as [[code msg| |]|]; try discriminate.
      destruct code; try discriminate.
      exists cli, db, msg. auto.
    + destruct db as [db|]; simpl; [|discriminate].
      destruct (String.eqb _ _); simpl;
        intros Hret Hex; injection Hret as <- <-; discriminate Hex.
Qed.

Lemma Observe_absent_only_on_not_found_witness :
  exists cli db msg,
    database.connected
      (sample.fixed (None, Some sample.notFound) (None, None) None
                    (None, None) (None, None) None)
    = database.connected cli
    /\ planetscale.Databases_Get cli []
         (database.getRequest (sample.databaseCR "shop"))
       = (db, Some (PlanetScaleError ErrNotFound msg)).
Proof.
  exact (proj2 (proj2 (Observe_absent_only_on_not_found
                         (sample.fresh
                            (resource.DatabaseCR (sample.databaseCR "shop"))))
                  (database.connected
                     (sample.fixed (None, Some sample.notFound) (None, None)
                                   None (None, None) (None, None) None))
                  (sample.databaseCR "shop")
                  (managed.Observation false false) None
                  eq_refl eq_refl eq_refl)).
Defined.



(* --------------------------------------------------------------------- *)
(** ** Observe of the Database client and the resource status *)

(** X11. Observe of the Database client writes nothing to the resource
    but the Available condition: metadata, spec and observed state are
    kept, and the conditions are either kept or have had Available set.
    Available is set exactly when the query came back, without the
    not-found sentinel, with a database whose state is
    planetscale.DatabaseReady. *)
Theorem database_Observe_sets_only_Available (s : Store) :
  forall c cr,
    object s = resource.DatabaseCR cr ->
    exists cr',
      object (snd (database.Observe c s)) = resource.DatabaseCR cr'
      /\ databasev1alpha1.ObjectMeta cr' = databasev1alpha1.ObjectMeta cr
      /\ databasev1alpha1.Spec cr' = databasev1alpha1.Spec cr
      /\ databasev1alpha1.AtProvider (databasev1alpha1.Status cr')
         = databasev1alpha1.AtProvider (databasev1alpha1.Status cr)
      /\ ((cr' = database.SetConditions cr xpv1.Available
           /\ exists cli db err,
               c = database.connected cli
               /\ planetscale.Databases_Get cli (api s)
                    (database.getRequest cr) = (Some db, err)
               /\ isNotFound err = false
               /\ planetscale.State db = planetscale.DatabaseReady)
          \/
          (cr' = cr
           /\ forall cli db err,
               c = database.connected cli ->
               planetscale.Databases_Get cli (api s)
                 (database.getRequest cr) = (Some db, err) ->
               isNotFound err = false ->
               planetscale.State db <> planetscale.DatabaseReady)).
Proof.
  intros c cr Hobj. destruct c as [[[[cli|]]|]]; run; rewrite Hobj; simpl.
  - destruct (planetscale.Databases_Get cli (api s) _) as [db err] eqn:Hget.
    destruct (isNotFound err) eqn:Hnf; simpl.
    + exists cr. rewrite Hobj. repeat split. right. split; [reflexivity|].
      intros cli' db' err' Hc Hget' Hnf'. injection Hc as <-.
      rewrite Hget in Hget'. injection Hget' as _ <-. congruence.
    + destruct db as [db|]; simpl.
      * destruct (String.eqb _ _) eqn:Hst; simpl.
        -- eexists. split; [reflexivity|]. repeat split. left.
           split; [reflexivity|]. exists cli, db, err.
           apply String.eqb_eq in Hst. auto.
        -- exists cr. rewrite Hobj. repeat split. right.
           split; [reflexivity|].
           intros cli' db' err' Hc Hget' _. injection Hc as <-.
           rewrite Hget in Hget'. injection Hget' as <- _.
           now apply String.eqb_neq.
      * exists cr. rewrite Hobj. repeat split. right. split; [reflexivity|].
        intros cli' db' err' Hc Hget' _. injection Hc as <-.
        rewrite Hget in Hget'. discriminate.
  - exists cr. rewrite Hobj. repeat split. right. split; [reflexivity|].
    intros cli' db' err' Hc. discriminate.
  - exists cr. rewrite Hobj. repeat split. right. split; [reflexivity|].
    intros cli' db' err' Hc. discriminate.
Qed.

Lemma database_Observe_sets_only_Available_witness :
  exists cr',
    object
      (snd (database.Observe
              (database.connected
                 (sample.fixed (Some sample.shopDB, None) (None, None) None
                               (None, None) (None, None) None))
              (sample.fresh (resource.DatabaseCR (sample.databaseCR "shop")))))
    = resource.DatabaseCR cr'
    /\ databasev1alpha1.ObjectMeta cr'
       = databasev1alpha1.ObjectMeta (sample.databaseCR "shop")
    /\ databasev1alpha1.Spec cr'
       = databasev1alpha1.Spec (sample.databaseCR "shop").
Proof.
  destruct (database_Observe_sets_only_Available
              (sample.fresh (resource.DatabaseCR (sample.databaseCR "shop")))
              (database.connected
                 (sample.fixed (Some sample.shopDB, None) (None, None) None
                               (None, None) (None, None) None))
              (sample.databaseCR "shop") eq_refl)
    as (cr' & Hobj & Hmeta & Hspec & _).
  exists cr'. auto.
Defined.

(* --------------------------------------------------------------------- *)
(** ** Observing twice *)

Lemma api_two (l : list planetscale.Call) a b : (l ++ [a]) ++ [b] = l ++ [a; b].
Proof. now rewrite <- app_assoc. Qed.

Lemma password_Observe_twice (s : Store) (cli : planetscale.Client) cr d :
  object s = resource.PasswordCR cr ->
  branchv1alpha1.Database
    (branchv1alpha1.ForProvider (branchv1alpha1.Spec cr)) = Some d ->
  planetscale.Passwords_Get cli
    (api s ++ [planetscale.PasswordsGet (password.getRequest cr d)])
    (password.getRequest cr d)
  = planetscale.Passwords_Get cli (api s) (password.getRequest cr d) ->
  fst (password.Observe (password.connected cli)
         (snd (password.Observe (password.connected cli) s)))
  = fst (password.Observe (password.connected cli) s)
  /\ api (snd (password.Observe (password.connected cli)
                 (snd (password.Observe (password.connected cli) s))))
     = api s ++ [planetscale.PasswordsGet (password.getRequest cr d);
                 planetscale.PasswordsGet (password.getRequest cr d)].
Proof.
  intros Hobj Hdb Hsame.
  assert (Hobj' : object (sent s (planetscale.PasswordsGet
                                  (password.getRequest cr d)))
                = resource.PasswordCR cr) by exact Hobj.
  pose proof (password_Observe_run cli _ cr d Hobj' Hdb) as H2.
  cbv zeta in H2. simpl api in H2. rewrite Hsame in H2.
  rewrite (password_Observe_run cli s cr d Hobj Hdb); cbv zeta.
  destruct (planetscale.Passwords_Get cli (api s) _) as [p err] eqn:Hget.
  destruct (isNotFound err) eqn:Hnf; [|destruct p as [p|]];
  cbn [snd fst]; rewrite H2; cbn [snd fst sent api]; rewrite api_two; split; reflexivity.
Qed.

Lemma database_Observe_twice (s : Store) (cli : planetscale.Client) cr :
  object s = resource.DatabaseCR cr ->
  planetscale.Databases_Get cli
    (api s ++ [planetscale.DatabasesGet (database.getRequest cr)])
    (database.getRequest cr)
  = planetscale.Databases_Get cli (api s) (database.getRequest cr) ->
  fst (database.Observe (database.connected cli)
         (snd (database.Observe (database.connected cli) s)))
  = fst (database.Observe (database.connected cli) s)
  /\ api (snd (database.Observe (database.connected cli)
                 (snd (database.Observe (database.connected cli) s))))
     = api s ++ [planetscale.DatabasesGet (database.getRequest cr);
                 planetscale.DatabasesGet (database.getRequest cr)].
Proof.
  intros Hobj Hsame.
  pose proof (database_Observe_run cli
              (sent s (planetscale.DatabasesGet (database.getRequest cr)))
              cr Hobj) as H2.
  pose proof (database_Observe_run cli
              {| object := resource.DatabaseCR
                             (database.SetConditions cr xpv1.Available);
                 api := api s ++ [planetscale.DatabasesGet
                                    (database.getRequest cr)];
                 kubelog := kubelog s |}
              (database.SetConditions cr xpv1.Available) eq_refl) as H3.
  cbv zeta in H2, H3. simpl in H2, H3.
  change (database.getRequest (database.SetConditions cr xpv1.Available))
  with (database.getRequest cr) in H3.
  rewrite Hsame in H2, H3.
  rewrite (database_Observe_run cli s cr Hobj); cbv zeta.
  destruct (planetscale.Databases_Get cli (api s) _) as [db err] eqn:Hget.
  destruct (isNotFound err) eqn:Hnf; [|destruct db as [db|]]; simpl.
  - rewrite H2. split; [reflexivity | simpl; rewrite ?api_two; reflexivity].
  - destruct (String.eqb _ _) eqn:Hst; simpl.
  + rewrite H3. split; [reflexivity | simpl; rewrite ?api_two; reflexivity].
  + rewrite H2. split; [reflexivity | simpl; rewrite ?api_two; reflexivity].
  - rewrite H2. split; [reflexivity | simpl; rewrite ?api_two; reflexivity].
Qed.

(** X12. Observe is repeatable. If the API gives the repeated query the
    answer it gave the first one, a second Observe right after the first
    returns the same observation and the same error; it sends the very
    same request, because the first Observe changed nothing the request
    is built from. *)
Theorem Observe_twice (s : Store) (cli : planetscale.Client) :
  (forall cr d,
      object s = resource.PasswordCR cr ->
      branchv1alpha1.Database
        (branchv1alpha1.ForProvider (branchv1alpha1.Spec cr)) = Some d ->
      planetscale.Passwords_Get cli
        (api s ++ [planetscale.PasswordsGet (password.getRequest cr d)])
        (password.getRequest cr d)
      = planetscale.Passwords_Get cli (api s) (password.getRequest cr d) ->
      fst (password.Observe (password.connected cli)
             (snd (password.Observe (password.connected cli) s)))
      = fst (password.Observe (password.connected cli) s)
      /\ api (snd (password.Observe (password.connected cli)
                     (snd (password.Observe (password.connected cli) s))))
         = api s ++ [planetscale.PasswordsGet (password.getRequest cr d);
                     planetscale.PasswordsGet (password.getRequest cr d)])
  /\
  (forall cr,
      object s = resource.DatabaseCR cr ->
      planetscale.Databases_Get cli
        (api s ++ [planetscale.DatabasesGet (database.getRequest cr)])
        (database.getRequest cr)
      = planetscale.Databases_Get cli (api s) (database.getRequest cr) ->
      fst (database.Observe (database.connected cli)
             (snd (database.Observe (database.connected cli) s)))
      = fst (database.Observe (database.connected cli) s)
      /\ api (snd (database.Observe (database.connected cli)
                     (snd (database.Observe (database.connected cli) s))))
         = api s ++ [planetscale.DatabasesGet (database.getRequest cr);
                     planetscale.DatabasesGet (database.getRequest cr)]).
Proof.
  split.
  - intros cr d. apply password_Observe_twice.
  - intros cr. apply database_Observe_twice.
Qed.

Lemma Observe_twice_witness :
  fst (password.Observe
         (password.connected
            (sample.fixed (None, None) (None, None) None
                          (Some (sample.secret "app-pw"), None)
                          (None, None) None))
         (snd (password.Observe
                 (password.connected
                    (sample.fixed (None, None) (None, None) None
                                  (Some (sample.secret "app-pw"), None)
                                  (None, None) None))
                 (sample.fresh
                    (resource.PasswordCR (sample.passwordCR "pw-7f3a"))))))
  = Returned (managed.Observation true false, None)
  /\
  fst (database.Observe
         (database.connected
            (sample.fixed (Some sample.shopDB, None) (None, None) None
                          (None, None) (None, None) None))
         (snd (database.Observe
                 (database.connected
                    (sample.fixed (Some sample.shopDB, None) (None, None) None
                                  (None, None) (None, None) None))
                 (sample.fresh
                    (resource.DatabaseCR (sample.databaseCR "shop"))))))
  = Returned (managed.Observation true true, None).
Proof.
  split.
  - exact (proj1 (proj1 (Observe_twice
                           (sample.fresh
                              (resource.PasswordCR
                                 (sample.passwordCR "pw-7f3a")))
                           (sample.fixed (None, None) (None, None) None
                                         (Some (sample.secret "app-pw"), None)
                                         (None, None) None))
                    (sample.passwordCR "pw-7f3a") "shop"
                    eq_refl eq_refl eq_refl)).
  - exact (proj1 (proj2 (Observe_twice
                           (sample.fresh
                              (resource.DatabaseCR (sample.databaseCR "shop")))
                           (sample.fixed (Some sample.shopDB, None)
                                         (None, None) None
                                         (None, None) (None, None) None))
                    (sample.databaseCR "shop") eq_refl eq_refl)).
Defined.

(* --------------------------------------------------------------------- *)
(** ** Create *)

(** X13. An error returned by Create is either the kind mismatch or the
    error of the API's create call, unchanged. Either way the resource is
    what it was before and the connection details are empty. *)
Theorem Create_error_changes_nothing (s : Store) :
  (forall c r e,
      fst (password.Create c s) = Returned (r, Some e) ->
      object (snd (password.Create c s)) = object s
      /\ managed.ConnectionDetails r = ∅
      /\ ((password.asPassword (object s) = None
           /\ e = errors.New password.errNotPassword)
          \/ exists cli cr d v,
              c = password.connected cli
              /\ object s = resource.PasswordCR cr
              /\ branchv1alpha1.Database
                   (branchv1alpha1.ForProvider (branchv1alpha1.Spec cr))
                 = Some d
              /\ planetscale.Passwords_Create cli (api s)
                   (password.createRequest cr d) = (v, Some e)))
  /\
  (forall c r e,
      fst (database.Create c s) = Returned (r, Some e) ->
      object (snd (database.Create c s)) = object s
      /\ managed.ConnectionDetails r = ∅
      /\ ((database.asDatabase (object s) = None
           /\ e = errors.New database.errNotDatabase)
          \/ exists cli cr v,
              c = database.connected cli
              /\ object s = resource.DatabaseCR cr
              /\ planetscale.Databases_Create cli (api s)
                   (database.createRequest cr
                      (default "" (databasev1alpha1.Notes
                                     (databasev1alpha1.ForProvider
                                        (databasev1alpha1.Spec cr))))
                      (default "" (databasev1alpha1.Region
                                     (databasev1alpha1.ForProvider
                                        (databasev1alpha1.Spec cr)))))
                 = (v, Some e))).
Proof.
  split.
  - intros c r e. destruct c as [[[[cli|]]|]]; run;
      destruct (object s) as [cr|cr|m] eqn:Hobj; simpl; try discriminate;
      try (intros Hret; injection Hret as <- <-; rewrite ?Hobj; auto).
    destruct (branchv1alpha1.Database _) as [d|] eqn:Hdb; simpl;
      [|discriminate].
    destruct (planetscale.Passwords_Create cli (api s) _) as [v err] eqn:Hans.
    destruct err as [e'|]; simpl.
    + intros Hret. injection Hret as <- <-. rewrite ?Hobj.
      repeat split. right. exists cli, cr, d, v. auto.
    + destruct v as [p|]; simpl; [|discriminate]. rewrite ?Hdb. simpl.
      discriminate.
  - intros c r e. destruct c as [[[[cli|]]|]]; run;
      destruct (object s) as [cr|cr|m] eqn:Hobj; simpl; try discriminate;
      try (intros Hret; injection Hret as <- <-; rewrite ?Hobj; auto).
    destruct (planetscale.Databases_Create cli (api s) _) as [v err] eqn:Hans.
    destruct err as [e'|]; simpl.
    + intros Hret. injection Hret as <- <-. rewrite ?Hobj.
      repeat split. right. exists cli, cr, v. auto.
    + destruct v as [db|]; simpl; discriminate.
Qed.

Lemma Create_error_changes_nothing_witness :
  object
    (snd (password.Create
            (password.connected
               (sample.fixed (None, None) (None, None) None (None, None)
                             (None, Some sample.timeout) None))
            (sample.fresh (resource.PasswordCR (sample.passwordCR "pw-old")))))
  = resource.PasswordCR (sample.passwordCR "pw-old")
  /\
  managed.ConnectionDetails {| managed.ConnectionDetails := ∅ |} = ∅.
Proof.
  destruct (proj1 (Create_error_changes_nothing
                     (sample.fresh
                        (resource.PasswordCR (sample.passwordCR "pw-old"))))
              (password.connected
                 (sample.fixed (None, None) (None, None) None (None, None)
                               (None, Some sample.timeout) None))
              {| managed.ConnectionDetails := ∅ |} sample.timeout eq_refl)
    as (Hobj & _).
  destruct (proj2 (Create_error_changes_nothing
                     (sample.fresh (resource.DatabaseCR
                                      (sample.databaseCR "shop"))))
              (database.connected
                 (sample.fixed (None, None) (None, Some sample.timeout) None
                               (None, None) (None, None) None))
              {| managed.ConnectionDetails := ∅ |} sample.timeout eq_refl)
    as (_ & Hcd & _).
  split; assumption.
Defined.

(** X14. A successful Create of the Database client has sent one create
    request, named by the resource's ExternalName and carrying the empty
    string for notes or region where the resource has a nil pointer; the
    API answered with a database, whose state is now the resource's
    observed state. Metadata, spec and conditions are what they were. *)
Theorem database_Create_records_the_state (s : Store) :
  forall c r,
    fst (database.Create c s) = Returned (r, None) ->
    exists cli cr db cr',
      c = database.connected cli
      /\ object s = resource.DatabaseCR cr
      /\ planetscale.Databases_Create cli (api s)
           {| planetscale.cd_Organization :=
                databasev1alpha1.Organization
                  (databasev1alpha1.ForProvider (databasev1alpha1.Spec cr));
              planetscale.cd_Name := externalName s;
              planetscale.cd_Notes :=
                default "" (databasev1alpha1.Notes
                              (databasev1alpha1.ForProvider
                                 (databasev1alpha1.Spec cr)));
              planetscale.cd_Region :=
                default "" (databasev1alpha1.Region
                              (databasev1alpha1.ForProvider
                                 (databasev1alpha1.Spec cr))) |}
         = (Some db, None)
      /\ object (snd (database.Create c s)) = resource.DatabaseCR cr'
      /\ databasev1alpha1.State
           (databasev1alpha1.AtProvider (databasev1alpha1.Status cr'))
         = planetscale.State db
      /\ databasev1alpha1.ObjectMeta cr' = databasev1alpha1.ObjectMeta cr
      /\ databasev1alpha1.Spec cr' = databasev1alpha1.Spec cr
      /\ databasev1alpha1.ResourceStatus (databasev1alpha1.Status cr')
         = databasev1alpha1.ResourceStatus (databasev1alpha1.Status cr).
Proof.
  intros c r. destruct c as [[[[cli|]]|]]; run;
    destruct (object s) as [cr|cr|m] eqn:Hobj; simpl; try discriminate.
  destruct (planetscale.Databases_Create cli (api s) _) as [v err] eqn:Hans.
  destruct err as [e|]; simpl; [discriminate|].
  destruct v as [db|]; simpl; [|discriminate].
  intros _. eexists cli, cr, db, _.
  split; [reflexivity|]. split; [reflexivity|].
  split; [|repeat split].
  unfold externalName. rewrite Hobj. exact Hans.
Qed.

Lemma database_Create_records_the_state_witness :
  exists db cr',
    object
      (snd (database.Create
              (database.connected
                 (sample.fixed (None, None) (Some sample.shopDB, None) None
                               (None, None) (None, None) None))
              (sample.fresh (resource.DatabaseCR (sample.databaseCR "shop")))))
    = resource.DatabaseCR cr'
    /\ databasev1alpha1.State
         (databasev1alpha1.AtProvider (databasev1alpha1.Status cr'))
       = planetscale.State db.
Proof.
  destruct (database_Create_records_the_state
              (sample.fresh (resource.DatabaseCR (sample.databaseCR "shop")))
              (database.connected
                 (sample.fixed (None, None) (Some sample.shopDB, None) None
                               (None, None) (None, None) None))
              {| managed.ConnectionDetails := ∅ |} eq_refl)
    as (cli & cr & db & cr' & _ & _ & _ & Hobj & Hstate & _).
  exists db, cr'. split; assumption.
Defined.



(* --------------------------------------------------------------------- *)
(** ** Create, then Observe or Delete *)

(** The request Observe and Delete send for a password once Create has
    bound it: the fields of the create request, and the public ID. *)
Lemma password_getRequest_after_Create cr d id :
  password.getRequest
    {| branchv1alpha1.ObjectMeta :=
         meta.SetExternalName (branchv1alpha1.ObjectMeta cr) id;
       branchv1alpha1.Spec := branchv1alpha1.Spec cr;
       branchv1alpha1.Status :=
         {| branchv1alpha1.ResourceStatus :=
              branchv1alpha1.ResourceStatus (branchv1alpha1.Status cr);
            branchv1alpha1.AtProvider := {| branchv1alpha1.ID := id |} |} |}
    d
  = {| planetscale.gp_Organization :=
         planetscale.cp_Organization (password.createRequest cr d);
       planetscale.gp_Database :=
         planetscale.cp_Database (password.createRequest cr d);
       planetscale.gp_Branch :=
         planetscale.cp_Branch (password.createRequest cr d);
       planetscale.gp_DisplayName :=
         planetscale.cp_DisplayName (password.createRequest cr d);
       planetscale.gp_PasswordId := id |}.
Proof.
  unfold password.getRequest, meta.GetExternalName. simpl.
  now rewrite lookup_insert_eq.
Qed.

(** X16. What is created is what is then observed and deleted. After a
    successful Create of the Password client, the next Observe and the
    next Delete ask for the password by the public ID the API has just
    returned, under the organization, database, branch and display name
    of the create request. After a successful Create of the Database
    client, the next Observe and Delete name the database the create
    request named. *)
Theorem Create_then_Observe_or_Delete (s : Store) (cli : planetscale.Client) :
  (forall cr d p,
      object s = resource.PasswordCR cr ->
      branchv1alpha1.Database
        (branchv1alpha1.ForProvider (branchv1alpha1.Spec cr)) = Some d ->
      planetscale.Passwords_Create cli (api s) (password.createRequest cr d)
      = (Some p, None) ->
      let q := password.createRequest cr d in
      let s' := snd (password.Create (password.connected cli) s) in
      api (snd (password.Observe (password.connected cli) s'))
      = api s
        ++ [planetscale.PasswordsCreate q;
            planetscale.PasswordsGet
              {| planetscale.gp_Organization := planetscale.cp_Organization q;
                 planetscale.gp_Database := planetscale.cp_Database q;
                 planetscale.gp_Branch := planetscale.cp_Branch q;
                 planetscale.gp_DisplayName := planetscale.cp_DisplayName q;
                 planetscale.gp_PasswordId := planetscale.PublicID p |}]
      /\
      api (snd (password.Delete (password.connected cli) s'))
      = api s
        ++ [planetscale.PasswordsCreate q;
            planetscale.PasswordsDelete
              {| planetscale.dp_Organization := planetscale.cp_Organization q;
                 planetscale.dp_Database := planetscale.cp_Database q;
                 planetscale.dp_Branch := planetscale.cp_Branch q;
                 planetscale.dp_DisplayName := planetscale.cp_DisplayName q;
                 planetscale.dp_PasswordId := planetscale.PublicID p |}])
  /\
  (forall cr q db,
      object s = resource.DatabaseCR cr ->
      q = database.createRequest cr
            (default "" (databasev1alpha1.Notes
                           (databasev1alpha1.ForProvider
                              (databasev1alpha1.Spec cr))))
            (default "" (databasev1alpha1.Region
                           (databasev1alpha1.ForProvider
                              (databasev1alpha1.Spec cr)))) ->
      planetscale.Databases_Create cli (api s) q = (Some db, None) ->
      let s' := snd (database.Create (database.connected cli) s) in
      api (snd (database.Observe (database.connected cli) s'))
      = api s
        ++ [planetscale.DatabasesCreate q;
            planetscale.DatabasesGet
              {| planetscale.gd_Organization := planetscale.cd_Organization q;
                 planetscale.gd_Database := planetscale.cd_Name q |}]
      /\
      api (snd (database.Delete (database.connected cli) s'))
      = api s
        ++ [planetscale.DatabasesCreate q;
            planetscale.DatabasesDelete
              {| planetscale.dd_Organization := planetscale.cd_Organization q;
                 planetscale.dd_Database := planetscale.cd_Name q |}]).
Proof.
  split.
  - intros cr d p Hobj Hdb Hans q s'.
    assert (Hs' : s' = {| object :=
                            resource.PasswordCR
                              {| branchv1alpha1.ObjectMeta :=
                                   meta.SetExternalName
                                     (branchv1alpha1.ObjectMeta cr)
                                     (planetscale.PublicID p);
                                 branchv1alpha1.Spec := branchv1alpha1.Spec cr;
                                 branchv1alpha1.Status :=
                                   {| branchv1alpha1.ResourceStatus :=
                                        branchv1alpha1.ResourceStatus
                                          (branchv1alpha1.Status cr);
                                      branchv1alpha1.AtProvider :=
                                        {| branchv1alpha1.ID :=
                                             planetscale.PublicID p |} |} |};
                          api := api s ++ [planetscale.PasswordsCreate q];
                          kubelog := kubelog s |}).
    { subst s' q. run. rewrite Hobj. simpl. rewrite Hdb. simpl.
      rewrite Hans. simpl. rewrite ?Hdb. reflexivity. }
    rewrite Hs'. split.
    + erewrite password_Observe_run by (simpl; first [reflexivity | exact Hdb]).
      cbv zeta. rewrite password_getRequest_after_Create.
      destruct (planetscale.Passwords_Get _ _ _) as [v err].
      destruct (isNotFound err); [|destruct v]; simpl;
        now rewrite <- app_assoc.
    + erewrite password_Delete_run by (simpl; first [reflexivity | exact Hdb]).
      simpl. unfold password.deleteRequest, meta.GetExternalName. simpl.
      rewrite lookup_insert_eq. simpl. now rewrite <- app_assoc.
  - intros cr q db Hobj Hq Hans s'.
    assert (Hs' : s' = {| object :=
                            resource.DatabaseCR
                              {| databasev1alpha1.ObjectMeta :=
                                   databasev1alpha1.ObjectMeta cr;
                                 databasev1alpha1.Spec :=
                                   databasev1alpha1.Spec cr;
                                 databasev1alpha1.Status :=
                                   {| databasev1alpha1.ResourceStatus :=
                                        databasev1alpha1.ResourceStatus
                                          (databasev1alpha1.Status cr);
                                      databasev1alpha1.AtProvider :=
                                        {| databasev1alpha1.State :=
                                             planetscale.State db |} |} |};
                          api := api s ++ [planetscale.DatabasesCreate q];
                          kubelog := kubelog s |}).
    { subst s' q. run. rewrite Hobj. simpl.
      destruct (databasev1alpha1.Notes _), (databasev1alpha1.Region _);
        simpl in Hans |- *; rewrite Hans; reflexivity. }
    rewrite Hs'. subst q. split.
    + erewrite database_Observe_run by reflexivity.
      cbv zeta.
      destruct (planetscale.Databases_Get _ _ _) as [v err].
      destruct (isNotFound err); [|destruct v as [v|]]; simpl;
        [| destruct (String.eqb _ _); simpl |];
        now rewrite <- app_assoc.
    + erewrite database_Delete_run by reflexivity.
      simpl. now rewrite <- app_assoc.
Qed.

Lemma Create_then_Observe_or_Delete_witness :
  api (snd (password.Observe
              (password.connected
                 (sample.fixed (None, None) (None, None) None (None, None)
                               (Some (sample.secret "app-pw"), None) None))
              (snd (password.Create
                      (password.connected
                         (sample.fixed (None, None) (None, None) None
                                       (None, None)
                                       (Some (sample.secret "app-pw"), None)
                                       None))
                      (sample.fresh
                         (resource.PasswordCR (sample.passwordCR "pw-old")))))))
  = [planetscale.PasswordsCreate
       {| planetscale.cp_Organization := "acme";
          planetscale.cp_Database := "shop";
          planetscale.cp_Branch := "main";
          planetscale.cp_DisplayName := "app-pw" |};
     planetscale.PasswordsGet
       {| planetscale.gp_Organization := "acme";
          planetscale.gp_Database := "shop";
          planetscale.gp_Branch := "main";
          planetscale.gp_DisplayName := "app-pw";
          planetscale.gp_PasswordId := "pw-7f3a" |}]
  /\
  api (snd (database.Delete
              (database.connected
                 (sample.fixed (None, None) (Some sample.shopDB, None) None
                               (None, None) (None, None) None))
              (snd (database.Create
                      (database.connected
                         (sample.fixed (None, None) (Some sample.shopDB, None)
                                       None (None, None) (None, None) None))
                      (sample.fresh
                         (resource.DatabaseCR (sample.databaseCR "shop")))))))
  = [planetscale.DatabasesCreate
       {| planetscale.cd_Organization := "acme";
          planetscale.cd_Name := "shop";
          planetscale.cd_Notes := "";
          planetscale.cd_Region := "us-east" |};
     planetscale.DatabasesDelete
       {| planetscale.dd_Organization := "acme";
          planetscale.dd_Database := "shop" |}].
Proof.
  split.
  - exact (proj1 (proj1 (Create_then_Observe_or_Delete
                           (sample.fresh
                              (resource.PasswordCR
                                 (sample.passwordCR "pw-old")))
                           (sample.fixed (None, None) (None, None) None
                                         (None, None)
                                         (Some (sample.secret "app-pw"), None)
                                         None))
                    (sample.passwordCR "pw-old") "shop"
                    (sample.secret "app-pw") eq_refl eq_refl eq_refl)).
  - exact (proj2 (proj2 (Create_then_Observe_or_Delete
                           (sample.fresh
                              (resource.DatabaseCR (sample.databaseCR "shop")))
                           (sample.fixed (None, None)
                                         (Some sample.shopDB, None) None
                                         (None, None) (None, None) None))
                    (sample.databaseCR "shop") _ sample.shopDB
                    eq_refl eq_refl eq_refl)).
Defined.
